(** * carboncare: the generated scheduler application

    [build_full_sceduler.py] writes out a small Django project.  The
    behaviour of that project lives in the generated files
    [booking/models.py] (the [Slot] and [Booking] tables),
    [booking/views.py] (the four views [index], [admin_login],
    [admin_panel], [book_slot]), [booking/urls.py] and the templates
    under [booking/templates].  This development embeds them, and the
    loop of the script that writes the files, and states the properties
    of the slot / booking life cycle over the embedding.

    Conventions.  A table is the list of its rows in insertion order; a
    Python [dict] is a [gmap]; an uncaught Python exception is a value of
    [exn]; database and session are passed explicitly.  A template is the
    list of the expressions that the template engine compiles when it
    loads it.  What the installed library reads from the text of a date
    field that is not written year-month-day is a parameter
    ([Installation]). *)

From Stdlib Require Import ZArith Lia List Sorted Permutation Ascii String.
From stdpp Require Import gmap strings list fin_maps.

Open Scope string_scope.
Open Scope list_scope.
Open Scope Z_scope.

(** ** Exceptions and the error monad *)

Inductive exn :=
| IllegalMonthError
| ValueError
| ValidationError
| MultiValueDictKeyError (key : string)
| MultipleObjectsReturned
| Http404
| TemplateDoesNotExist
| TemplateSyntaxError.

Inductive result (A : Type) :=
| Ok (a : A)
| Raise (e : exn).
Arguments Ok {A} a.
Arguments Raise {A} e.

Definition rbind {A B} (r : result A) (k : A -> result B) : result B :=
  match r with
  | Ok a => k a
  | Raise e => Raise e
  end.

#[global] Instance result_ret : MRet result := fun _ a => Ok a.
#[global] Instance result_bind : MBind result := fun _ _ k r => rbind r k.

Fixpoint rmapM {A B} (f : A -> result B) (l : list A) : result (list B) :=
  match l with
  | [] => Ok []
  | a :: l' => b ← f a; bs ← rmapM f l'; Ok (b :: bs)
  end.

(** ** Python's [datetime.date] *)

Module Datetime.

Record date := Date { year : Z; month : Z; day : Z }.

Definition MINYEAR : Z := 1.
Definition MAXYEAR : Z := 9999.

Definition _is_leap (y : Z) : bool :=
  (y mod 4 =? 0) && (negb (y mod 100 =? 0) || (y mod 400 =? 0)).

(* _DAYS_IN_MONTH = [-1, 31, 28, 31, 30, 31, 30, 31, 31, 30, 31, 30, 31] *)
Definition _DAYS_IN_MONTH : list Z :=
  [-1; 31; 28; 31; 30; 31; 30; 31; 31; 30; 31; 30; 31].

(* _DAYS_BEFORE_MONTH, the running sum of the table above *)
Definition _DAYS_BEFORE_MONTH : list Z :=
  [-1; 0; 31; 59; 90; 120; 151; 181; 212; 243; 273; 304; 334].

Definition _days_before_year (y : Z) : Z :=
  let y' := y - 1 in y' * 365 + y' / 4 - y' / 100 + y' / 400.

Definition _days_in_month (y m : Z) : Z :=
  if (m =? 2) && _is_leap y then 29
  else nth (Z.to_nat m) _DAYS_IN_MONTH 0.

Definition _days_before_month (y m : Z) : Z :=
  nth (Z.to_nat m) _DAYS_BEFORE_MONTH 0
  + (if (2 <? m) && _is_leap y then 1 else 0).

Definition _ymd2ord (y m d : Z) : Z :=
  _days_before_year y + _days_before_month y m + d.

(* _check_date_fields, as called by the constructor date(y, m, d) *)
Definition date_new (y m d : Z) : result date :=
  if negb ((MINYEAR <=? y) && (y <=? MAXYEAR)) then Raise ValueError
  else if negb ((1 <=? m) && (m <=? 12)) then Raise ValueError
  else if negb ((1 <=? d) && (d <=? _days_in_month y m)) then Raise ValueError
  else Ok (Date y m d).

Definition toordinal (d : date) : Z := _ymd2ord (year d) (month d) (day d).

(* Monday is 0, Sunday is 6 *)
Definition weekday (d : date) : Z := (toordinal d + 6) mod 7.

(* The order of dates: year, then month, then day. *)
Definition date_leb (a b : date) : bool :=
  (year a <? year b)
  || ((year a =? year b)
      && ((month a <? month b)
          || ((month a =? month b) && (day a <=? day b)))).

Definition date_le (a b : date) : Prop := date_leb a b = true.

(* a date that the constructor accepts *)
Definition date_valid (d : date) : Prop :=
  date_new (year d) (month d) (day d) = Ok d.

(* the character of a decimal digit *)
Definition digit_char (n : Z) : ascii := ascii_of_N (Z.to_N (48 + n)).

(* "%02d" % n *)
Definition zfill2 (n : Z) : string :=
  String (digit_char (n / 10 mod 10)) (String (digit_char (n mod 10)) EmptyString).

(* "%04d" % n *)
Definition zfill4 (n : Z) : string :=
  String (digit_char (n / 1000 mod 10))
    (String (digit_char (n / 100 mod 10)) (zfill2 n)).

(* d.isoformat(), the text a date input of a form submits:
   "%04d-%02d-%02d" % (year, month, day) *)
Definition isoformat (d : date) : string :=
  String.append (zfill4 (year d))
    (String "-" (String.append (zfill2 (month d))
                   (String "-" (zfill2 (day d))))).

End Datetime.
Export Datetime.

#[global] Instance date_eq_dec : EqDecision date.
Proof. solve_decision. Defined.

#[global] Instance date_countable : Countable date.
Proof.
  refine (inj_countable' (fun d => (year d, month d, day d))
                         (fun t => Date t.1.1 t.1.2 t.2) _).
  by intros [].
Defined.

(** ** Python's [calendar.Calendar().itermonthdates] *)

Module Calendar.

Definition February : Z := 2.

Definition mdays : list Z := [0; 31; 28; 31; 30; 31; 30; 31; 31; 30; 31; 30; 31].

Definition isleap (y : Z) : bool :=
  (y mod 4 =? 0) && (negb (y mod 100 =? 0) || (y mod 400 =? 0)).

Definition weekday (y m d : Z) : result Z :=
  let y := if negb ((MINYEAR <=? y) && (y <=? MAXYEAR))
           then 2000 + y mod 400 else y in
  dt ← date_new y m d; Ok (Datetime.weekday dt).

Definition _monthlen (y m : Z) : Z :=
  nth (Z.to_nat m) mdays 0 + (if (m =? February) && isleap y then 1 else 0).

Definition monthrange (y m : Z) : result (Z * Z) :=
  if negb ((1 <=? m) && (m <=? 12)) then Raise IllegalMonthError
  else day1 ← weekday y m 1; Ok (day1, _monthlen y m).

Definition _prevmonth (y m : Z) : Z * Z :=
  if m =? 1 then (y - 1, 12) else (y, m - 1).

Definition _nextmonth (y m : Z) : Z * Z :=
  if m =? 12 then (y + 1, 1) else (y, m + 1).

(* Calendar() is built with firstweekday = 0 *)
Definition firstweekday : Z := 0.

(* range(a, b) *)
Definition range (a b : Z) : list Z := seqZ a (b - a).

Definition itermonthdays3 (y m : Z) : result (list (Z * Z * Z)) :=
  '(day1, ndays) ← monthrange y m;
  let days_before := (day1 - firstweekday) mod 7 in
  let days_after := (firstweekday - day1 - ndays) mod 7 in
  let '(py, pm) := _prevmonth y m in
  let stop := _monthlen py pm + 1 in
  let '(ny, nm) := _nextmonth y m in
  Ok (((fun d => (py, pm, d)) <$> range (stop - days_before) stop)
      ++ ((fun d => (y, m, d)) <$> range 1 (ndays + 1))
      ++ ((fun d => (ny, nm, d)) <$> range 1 (days_after + 1))).

Definition itermonthdates (y m : Z) : result (list date) :=
  l ← itermonthdays3 y m;
  rmapM (fun '(y', m', d') => date_new y' m' d') l.

End Calendar.

(** ** Strings: [str.split(sep)] and [int] *)

Module Str.

(* the pieces of [s] between the characters that satisfy [sep];
   empty pieces are kept, as in [s.split(",")] *)
Fixpoint split_by (sep : ascii -> bool) (s : string) : list string :=
  match s with
  | EmptyString => [EmptyString]
  | String a s' =>
      if sep a then EmptyString :: split_by sep s'
      else match split_by sep s' with
           | w :: ws => String a w :: ws
           | [] => [String a EmptyString]
           end
  end.

(* s.split(c) *)
Definition split_on (c : ascii) (s : string) : list string :=
  split_by (Ascii.eqb c) s.

Definition digit_val (a : ascii) : option Z :=
  let n := Z.of_N (N_of_ascii a) in
  if (48 <=? n) && (n <=? 57) then Some (n - 48) else None.

(* int(s) for a string of decimal digits *)
Definition int_of_digits (s : string) : option Z :=
  foldl (fun acc a => n ← acc; d ← digit_val a; Some (10 * n + d))
        (Some 0) (list_ascii_of_string s).

End Str.

(** ** The installed Python and Django

    [DateField.to_python] hands the text of a form field to
    [django.utils.dateparse.parse_date], which reads it with
    [date.fromisoformat] and with a pattern of its own.  A text made of
    four decimal digits, a hyphen, one or two digits, a hyphen and one or
    two digits is read alike by all versions.  Which other texts are read
    as a date (20240610, 2024-W24-1, a date followed by a newline, digits
    of other scripts) depends on the versions that are installed, so the
    development is parametric in it: [other_date_text] gives, for a text
    that is not of the form above, the date that the installation reads
    from it, or [None] when it raises [ValidationError]. *)

Class Installation := other_date_text : string -> option date.

(* an installation that reads no other text as a date; the properties are
   evaluated on it *)
Definition strict_dates : Installation := fun _ => None.

(** ** booking/models.py *)

(** [DateField.to_python] on the text of a form field.  A text that reads
    year-month-day, four decimal digits, then one or two, then one or two,
    as the date input of admin_panel.html submits it, is the date it
    names, and [ValidationError] is raised when there is no such date.
    Every other text is left to the installation. *)
Definition DateField_to_python `{!Installation} (value : string) : result date :=
  let other : result date :=
    match other_date_text value with
    | Some dt => Ok dt
    | None => Raise ValidationError
    end in
  match Str.split_on "-" value with
  | [ys; ms; ds] =>
      if negb ((String.length ys =? 4)%nat
               && (1 <=? String.length ms)%nat && (String.length ms <=? 2)%nat
               && (1 <=? String.length ds)%nat && (String.length ds <=? 2)%nat)
      then other
      else match Str.int_of_digits ys, Str.int_of_digits ms, Str.int_of_digits ds with
           | Some y, Some m, Some d =>
               match date_new y m d with
               | Ok dt => Ok dt
               | Raise _ => Raise ValidationError
               end
           | _, _, _ => other
           end
  | _ => other
  end.

(* class Slot(models.Model): date, time, available; id is the primary key *)
Record Slot := mkSlot {
  s_id : Z;
  s_date : date;
  s_time : string;
  s_available : bool;
}.

(* class Booking(models.Model): name, email, slot (foreign key to Slot) *)
Record Booking := mkBooking {
  b_id : Z;
  b_name : string;
  b_email : string;
  b_slot : Z;
}.

(* the two tables, rows in insertion order *)
Record db := mkDb {
  slots : list Slot;
  bookings : list Booking;
}.

#[global] Instance Slot_eq_dec : EqDecision Slot.
Proof. solve_decision. Defined.

#[global] Instance Booking_eq_dec : EqDecision Booking.
Proof. solve_decision. Defined.

Module ORM.

(* the key given to a new row: one more than the largest key in use *)
Definition next_id (ids : list Z) : Z := 1 + foldr Z.max 0 ids.

(* Slot.objects.create(date=..., time=..., available=...) *)
Definition Slot_objects_create `{!Installation} (date_text time : string)
    (available : bool) (d : db) : result Slot * db :=
  match DateField_to_python date_text with
  | Raise e => (Raise e, d)
  | Ok dt =>
      let s := mkSlot (next_id (s_id <$> slots d)) dt time available in
      (Ok s, mkDb (slots d ++ [s]) (bookings d))
  end.

(* Booking.objects.create(name=..., email=..., slot=...) *)
Definition Booking_objects_create (name email : string) (slot : Slot)
    (d : db) : Booking * db :=
  let b := mkBooking (next_id (b_id <$> bookings d)) name email (s_id slot) in
  (b, mkDb (slots d) (bookings d ++ [b])).

(* slot.save(): the row with this primary key is overwritten; when there
   is none the row is inserted *)
Definition Slot_save (s : Slot) (d : db) : db :=
  if existsb (fun r => s_id r =? s_id s) (slots d)
  then mkDb ((fun r => if s_id r =? s_id s then s else r) <$> slots d)
            (bookings d)
  else mkDb (slots d ++ [s]) (bookings d).

(* Slot.objects.filter(date__month=month) *)
Definition Slot_objects_filter_month (m : Z) (d : db) : list Slot :=
  filter (fun s => month (s_date s) = m) (slots d).

(* Slot.objects.get(id=slot_id, available=True) inside get_object_or_404 *)
Definition get_object_or_404 (slot_id : Z) (available : bool) (d : db)
    : result Slot :=
  match filter (fun s => s_id s = slot_id ∧ s_available s = available)
               (slots d) with
  | [] => Raise Http404
  | [s] => Ok s
  | _ => Raise MultipleObjectsReturned
  end.

(* ORDER BY date: insertion of each row after the rows that are not
   later than it *)
Fixpoint insert_by_date (s : Slot) (l : list Slot) : list Slot :=
  match l with
  | [] => [s]
  | r :: l' =>
      if date_leb (s_date r) (s_date s) then r :: insert_by_date s l'
      else s :: r :: l'
  end.

(* Slot.objects.order_by("date") *)
Definition Slot_objects_order_by_date (d : db) : list Slot :=
  foldl (fun acc s => insert_by_date s acc) [] (slots d).

End ORM.
Export ORM.

(** ** Python values that are None, True or False *)

Module Py.

(* the truth value: only True is true *)
Definition truthy (v : option bool) : bool :=
  match v with
  | Some true => true
  | _ => false
  end.

End Py.

(** ** Django's template engine: compiling an expression

    The engine compiles a template when it is loaded.  The expression of
    a tag or of {{ }} is read by [FilterExpression] with one pattern: a
    constant or a variable at the start, then filters, each a bar, a name
    and at most one argument after a colon.  What the pattern leaves
    over raises [TemplateSyntaxError], and so does a filter that is not
    registered.  Only the syntax is modelled, for characters of the Latin
    alphabet; the arguments of a registered filter are not counted. *)

Module DjangoTemplate.

Definition code (a : ascii) : N := N_of_ascii a.

Definition between (lo hi : N) (a : ascii) : bool :=
  ((lo <=? code a) && (code a <=? hi))%N.

(* \d *)
Definition is_digit (a : ascii) : bool := between 48 57 a.

(* \w: a digit, a letter or the underscore *)
Definition is_word (a : ascii) : bool :=
  is_digit a || between 65 90 a || between 97 122 a || (code a =? 95)%N.

(* \s *)
Definition is_space (a : ascii) : bool := between 9 13 a || between 28 32 a.

(* [\w\.] *)
Definition is_var_char (a : ascii) : bool := is_word a || (code a =? 46)%N.

(* the longest start of [s] made of characters that satisfy [p], and what
   follows it *)
Fixpoint span (p : ascii -> bool) (s : string) : string * string :=
  match s with
  | EmptyString => (EmptyString, EmptyString)
  | String a s' =>
      if p a then let '(w, r) := span p s' in (String a w, r)
      else (EmptyString, s)
  end.

(* after the quote [q] that opens a string: what follows the quote that
   closes it; a backslash takes the next character, a newline excepted,
   with it *)
Fixpoint after_quote (q : ascii) (s : string) : option string :=
  match s with
  | EmptyString => None
  | String a s' =>
      if Ascii.eqb a q then Some s'
      else if (code a =? 92)%N then
        match s' with
        | String b s'' => if (code b =? 10)%N then None else after_quote q s''
        | EmptyString => None
        end
      else after_quote q s'
  end.

(* a string in double or in single quotes at the start: what follows it *)
Definition quoted (s : string) : option string :=
  match s with
  | String q s' =>
      if ((code q =? 34) || (code q =? 39))%N then after_quote q s' else None
  | EmptyString => None
  end.

(* constant_string: a quoted string, or one inside _( ) *)
Definition constant (s : string) : option string :=
  match s with
  | String a (String b s') =>
      if ((code a =? 95) && (code b =? 40))%N then
        match quoted s' with
        | Some (String c rest) => if (code c =? 41)%N then Some rest else None
        | _ => None
        end
      else quoted s
  | _ => quoted s
  end.

(* a variable, [\w\.]+, or a number, [-+.]?\d[\d.e]*, at the start: its
   text and what follows *)
Definition var (s : string) : option (string * string) :=
  match s with
  | String a s' =>
      if is_var_char a then Some (span is_var_char s)
      else if ((code a =? 43) || (code a =? 45))%N then
        match s' with
        | String b s'' =>
            if is_digit b then
              let '(w, r) :=
                span (fun c => is_digit c || (code c =? 46)%N || (code c =? 101)%N)
                     s'' in
              Some (String a (String b w), r)
            else None
        | EmptyString => None
        end
      else None
  | EmptyString => None
  end.

Fixpoint has_dot_underscore (s : string) : bool :=
  match s with
  | String a s' =>
      match s' with
      | String b _ =>
          ((code a =? 46) && (code b =? 95))%N || has_dot_underscore s'
      | EmptyString => false
      end
  | EmptyString => false
  end.

(* Variable(var): neither the variable nor an attribute may begin with an
   underscore *)
Definition Variable_new (v : string) : result unit :=
  let starts :=
    match v with
    | String a _ => (code a =? 95)%N
    | EmptyString => false
    end in
  if starts || has_dot_underscore v then Raise TemplateSyntaxError else Ok tt.

(* the names under which django.template.defaultfilters registers its
   filters; the templates of the project load no other library *)
Definition builtin_filters : list string :=
  [ "add"; "addslashes"; "capfirst"; "center"; "cut"; "date"; "default";
    "default_if_none"; "dictsort"; "dictsortreversed"; "divisibleby";
    "escape"; "escapejs"; "escapeseq"; "filesizeformat"; "first";
    "floatformat"; "force_escape"; "get_digit"; "iriencode"; "join";
    "json_script"; "last"; "length"; "length_is"; "linebreaks";
    "linebreaksbr"; "linenumbers"; "ljust"; "lower"; "make_list";
    "phone2numeric"; "pluralize"; "pprint"; "random"; "rjust"; "safe";
    "safeseq"; "slice"; "slugify"; "stringformat"; "striptags"; "time";
    "timesince"; "timeuntil"; "title"; "truncatechars";
    "truncatechars_html"; "truncatewords"; "truncatewords_html";
    "unordered_list"; "upper"; "urlencode"; "urlize"; "urlizetrunc";
    "wordcount"; "wordwrap"; "yesno" ].

(* one filter at the start of [s], \s*\|\s*(\w+)(?::(constant|variable))?:
   its name, its argument when that is a variable, and what follows *)
Definition filter_at (s : string) : option (string * option string * string) :=
  match (span is_space s).2 with
  | String a r =>
      if negb (code a =? 124)%N then None
      else
        let '(name, r1) := span is_word (span is_space r).2 in
        if String.eqb name EmptyString then None
        else
          match r1 with
          | String c r2 =>
              if (code c =? 58)%N then
                match constant r2 with
                | Some r3 => Some (name, None, r3)
                | None =>
                    match var r2 with
                    | Some (v, r3) => Some (name, Some v, r3)
                    | None => Some (name, None, r1)
                    end
                end
              else Some (name, None, r1)
          | EmptyString => Some (name, None, r1)
          end
  | EmptyString => None
  end.

(* the filters after the start of an expression, up to its end; each one
   takes at least its bar, so the length of the expression is fuel
   enough *)
Fixpoint filters (fuel : nat) (s : string) : result unit :=
  match s with
  | EmptyString => Ok tt
  | String _ _ =>
      match fuel with
      | O => Raise TemplateSyntaxError
      | S fuel' =>
          match filter_at s with
          | None => Raise TemplateSyntaxError
          | Some (name, arg, rest) =>
              _ ← match arg with
                  | Some v => Variable_new v
                  | None => Ok tt
                  end;
              if bool_decide (name ∈ builtin_filters) then filters fuel' rest
              else Raise TemplateSyntaxError
          end
      end
  end.

(* FilterExpression(token, parser), as parser.compile_filter calls it *)
Definition FilterExpression (token : string) : result unit :=
  match constant token with
  | Some rest => filters (String.length token) rest
  | None =>
      match var token with
      | Some (v, rest) => _ ← Variable_new v; filters (String.length token) rest
      | None =>
          match token with
          | EmptyString => Ok tt
          | String _ _ => Raise TemplateSyntaxError
          end
      end
  end.

End DjangoTemplate.

(** ** booking/templates *)

Module Template.

(* the expressions of a template, in the order of its text, which is the
   order in which the parser compiles them: the argument of extends, of
   for ... in, the operands of if, the content of {{ }} *)
Definition expressions (template_name : string) : option (list string) :=
  if String.eqb template_name "base.html" then Some []
  else if String.eqb template_name "calendar.html" then
    Some [ "'base.html'"; "month"; "year"; "days"; "day.month"; "month";
           "day.day"; "'9am 10am 11am 12pm 1pm 2pm 3pm 4pm'.split";
           "slot_map|get_item:(day,time)"; "time";
           "slot_map|get_item:(day,time)"; "None";
           "slot_map|get_item:(day,time)|yesno:'1,0'"; "time" ]
  else if String.eqb template_name "login.html" then Some [ "'base.html'" ]
  else if String.eqb template_name "admin_panel.html" then
    Some [ "'base.html'"; "slots"; "s.date"; "s.time"; "s.available" ]
  else if String.eqb template_name "book.html" then
    Some [ "'base.html'"; "slot.date"; "slot.time" ]
  else None.

(* loader.get_template(template_name): the template is found under
   booking/templates and compiled; the first expression that does not
   compile ends it *)
Definition get_template (template_name : string) : result unit :=
  match expressions template_name with
  | None => Raise TemplateDoesNotExist
  | Some es => _ ← rmapM DjangoTemplate.FilterExpression es; Ok tt
  end.

End Template.

(** ** booking/views.py *)

Module Views.

Definition OWNER_PASSWORD : string := "admin123".

Record request := mkRequest {
  method : string;
  POST : gmap string string;
  session : gmap string bool;
}.

(* the second argument of render(request, template, context) *)
Inductive context :=
| calendar_context (days : list date) (slot_map : gmap (date * string) bool)
                   (month year : Z)
| no_context
| admin_panel_context (all_slots : list Slot)
| book_context (slot : Slot).

(* what a view returns: the page of a template that was loaded and
   rendered with a context, or a redirect *)
Inductive response :=
| render (template : string) (c : context)
| redirect (to : string).

(* what a view leaves behind: the response or the exception that escaped
   it, the session, the database *)
Definition outcome : Type := result response * gmap string bool * db.

(* request.POST[key] *)
Definition POST_getitem (req : request) (key : string) : result string :=
  match POST req !! key with
  | Some v => Ok v
  | None => Raise (MultiValueDictKeyError key)
  end.

(* one step of the comprehension below: slot_map[(s.date, s.time)] = s.available *)
Definition slot_map_put (m : gmap (date * string) bool) (s : Slot)
    : gmap (date * string) bool :=
  <[(s_date s, s_time s) := s_available s]> m.

(* {(s.date, s.time): s.available for s in slots} *)
Definition build_slot_map (l : list Slot) : gmap (date * string) bool :=
  foldl slot_map_put ∅ l.

(* render(request, template_name, context) of django.shortcuts: the
   template is loaded, which compiles it, and rendered with the context *)
Definition shortcuts_render (template_name : string) (c : context)
    : result response :=
  _ ← Template.get_template template_name; Ok (render template_name c).
#[global] Arguments shortcuts_render : simpl never.

(* the body of index up to the call of render: the context *)
Definition index_context (today : date) (d : db) : result context :=
  let y := year today in
  let m := month today in
  month_days ← Calendar.itermonthdates y m;
  let sl := Slot_objects_filter_month m d in
  let slot_map := build_slot_map sl in
  Ok (calendar_context month_days slot_map m y).

Definition index (today : date) (req : request) (d : db) : outcome :=
  (c ← index_context today d; shortcuts_render "calendar.html" c,
   session req, d).

Definition admin_login (req : request) (d : db) : outcome :=
  if decide (method req = "POST") then
    if decide (POST req !! "password" = Some OWNER_PASSWORD)
    then (Ok (redirect "/admin_panel/"),
          <["is_owner" := true]> (session req), d)
    else (shortcuts_render "login.html" no_context, session req, d)
  else (shortcuts_render "login.html" no_context, session req, d).

Definition admin_panel `{!Installation} (req : request) (d : db) : outcome :=
  if negb (Py.truthy (session req !! "is_owner"))
  then (Ok (redirect "/login/"), session req, d)
  else
    let show (d' : db) : outcome :=
      let all_slots := Slot_objects_order_by_date d' in
      (shortcuts_render "admin_panel.html" (admin_panel_context all_slots),
       session req, d') in
    if decide (method req = "POST") then
      match POST_getitem req "date" with
      | Raise e => (Raise e, session req, d)
      | Ok date_text =>
          match POST_getitem req "time" with
          | Raise e => (Raise e, session req, d)
          | Ok time =>
              match Slot_objects_create date_text time true d with
              | (Raise e, d') => (Raise e, session req, d')
              | (Ok _, d') => show d'
              end
          end
      end
    else show d.

(* the writes of the POST branch of book_slot, in program order; each
   one is committed on its own *)
Definition book_slot_writes (req_name req_email : string) (slot : Slot)
    : list (db -> db) :=
  [ (fun d => (Booking_objects_create req_name req_email slot d).2);
    (fun d => Slot_save (mkSlot (s_id slot) (s_date slot) (s_time slot) false) d) ].

(* the database after the first [n] of a list of writes *)
Definition commit (n : nat) (ws : list (db -> db)) (d : db) : db :=
  foldl (fun acc w => w acc) d (take n ws).

Definition book_slot (slot_id : Z) (req : request) (d : db) : outcome :=
  match get_object_or_404 slot_id true d with
  | Raise e => (Raise e, session req, d)
  | Ok slot =>
      if decide (method req = "POST") then
        match POST_getitem req "name" with
        | Raise e => (Raise e, session req, d)
        | Ok name =>
            match POST_getitem req "email" with
            | Raise e => (Raise e, session req, d)
            | Ok email =>
                let ws := book_slot_writes name email slot in
                (Ok (redirect "/"), session req, commit (length ws) ws d)
            end
        end
      else (shortcuts_render "book.html" (book_context slot), session req, d)
  end.

(** booking/urls.py *)
Inductive url :=
| url_index
| url_login
| url_admin_panel
| url_book (slot_id : Z).

Definition dispatch `{!Installation} (u : url) (today : date) (req : request)
    (d : db) : outcome :=
  match u with
  | url_index => index today req d
  | url_login => admin_login req d
  | url_admin_panel => admin_panel req d
  | url_book slot_id => book_slot slot_id req d
  end.

(* one request arriving at the server *)
Record event := mkEvent {
  ev_url : url;
  ev_today : date;
  ev_request : request;
}.

Definition step `{!Installation} (d : db) (e : event) : db :=
  (dispatch (ev_url e) (ev_today e) (ev_request e) d).2.

(* requests are served one after the other *)
Definition run `{!Installation} (d : db) (es : list event) : db :=
  foldl step d es.

End Views.
Export Views.

(** ** Vocabulary of the properties *)

(* the primary key of the Slot table identifies a row *)
Definition pk_unique (d : db) : Prop := NoDup (s_id <$> slots d).

(* the Slot [slot_id] exists and every row that carries this key is
   unavailable *)
Definition booked (slot_id : Z) (d : db) : Prop :=
  (∃ s, s ∈ slots d ∧ s_id s = slot_id)
  ∧ ∀ s, s ∈ slots d → s_id s = slot_id → s_available s = false.

(* an unavailable Slot that no Booking refers to *)
Definition orphan (slot_id : Z) (d : db) : bool :=
  existsb (fun s => (s_id s =? slot_id) && negb (s_available s)) (slots d)
  && forallb (fun b => negb (b_slot b =? slot_id)) (bookings d).

(* the order of the admin panel: by date *)
Definition slot_date_le (a b : Slot) : Prop := date_le (s_date a) (s_date b).

(* rows of the admin panel: each one dated no later than the next *)
Definition date_ascending (l : list Slot) : Prop :=
  ∀ (i : nat) (a b : Slot),
    l !! i = Some a → l !! S i = Some b → slot_date_le a b.

(* the Slot with its availability set to [v] *)
Definition with_available (v : bool) (s : Slot) : Slot :=
  mkSlot (s_id s) (s_date s) (s_time s) v.

(* the request is served by the admin panel and adds one row to the Slot
   table: a second Slot with the date and the time of [s], available,
   under a key of its own *)
Definition adds_duplicate_of `{!Installation} (s : Slot) (req : request)
    (d : db) : Prop :=
  ∃ s',
    let d' := mkDb (slots d ++ [s']) (bookings d) in
    admin_panel req d
    = (Ok (render "admin_panel.html"
             (admin_panel_context (Slot_objects_order_by_date d'))),
       session req, d')
    ∧ s_date s' = s_date s ∧ s_time s' = s_time s ∧ s_available s' = true
    ∧ s' ≠ s
    ∧ ∀ r, r ∈ slots d → s_id r ≠ s_id s'.

(** The index view as the specification reads it: the Slots of the
    displayed month of the displayed year, that is
    [Slot.objects.filter(date__month=month, date__year=year)]; the rest
    is [index]. *)
Definition index_month_year_context (today : date) (d : db) : result context :=
  let y := year today in
  let m := month today in
  month_days ← Calendar.itermonthdates y m;
  let sl := filter (fun s => month (s_date s) = m ∧ year (s_date s) = y)
                   (slots d) in
  let slot_map := build_slot_map sl in
  Ok (calendar_context month_days slot_map m y).

Definition index_month_year (today : date) (req : request) (d : db) : outcome :=
  (c ← index_month_year_context today d; shortcuts_render "calendar.html" c,
   session req, d).

(* the cells that calendar.html names: for day in days, if day.month is
   month, the key (day, time) of the slot map.  Two contexts of the
   calendar that hold the same days, month and year, and the same under
   these keys *)
Definition same_calendar (c1 c2 : context) : Prop :=
  match c1, c2 with
  | calendar_context days1 slot_map1 m1 y1,
    calendar_context days2 slot_map2 m2 y2 =>
      days1 = days2 ∧ m1 = m2 ∧ y1 = y2
      ∧ ∀ (dt : date) (time : string),
          dt ∈ days1 → month dt = m1 →
          slot_map1 !! (dt, time) = slot_map2 !! (dt, time)
  | _, _ => False
  end.

(* what one request can do to the database: nothing, one new Slot, or one
   Booking together with the flip of its Slot *)
Inductive effect (d : db) (e : event) : db → Prop :=
| effect_none :
    effect d e d
| effect_slot (s : Slot) :
    ev_url e = url_admin_panel →
    method (ev_request e) = "POST" →
    Py.truthy (session (ev_request e) !! "is_owner") = true →
    s_id s = next_id (s_id <$> slots d) →
    s_available s = true →
    effect d e (mkDb (slots d ++ [s]) (bookings d))
| effect_booking (slot : Slot) (name email : string) :
    ev_url e = url_book (s_id slot) →
    method (ev_request e) = "POST" →
    slot ∈ slots d →
    s_available slot = true →
    get_object_or_404 (s_id slot) true d = Ok slot →
    effect d e
      (mkDb ((fun r => if s_id r =? s_id slot then with_available false slot else r)
               <$> slots d)
            (bookings d
             ++ [mkBooking (next_id (b_id <$> bookings d)) name email (s_id slot)])).

(** ** Sample data: the scenario of the specification *)

Module Sample.

Definition slot7 : Slot := mkSlot 7 (Date 2024 6 10) "9am" true.
Definition slot8 : Slot := mkSlot 8 (Date 2024 6 11) "10am" false.
Definition slot9 : Slot := mkSlot 9 (Date 2023 6 10) "9am" false.

Definition db0 : db := mkDb [slot7; slot8; slot9] [].

Definition today : date := Date 2024 6 15.

Definition anonymous : gmap string bool := ∅.
Definition owner : gmap string bool := {[ "is_owner" := true ]}.

Definition get (sess : gmap string bool) : request := mkRequest "GET" ∅ sess.

Definition post_booking : request :=
  mkRequest "POST" {[ "name" := "Alice"; "email" := "a@x.com" ]} anonymous.

Definition post_slot (sess : gmap string bool) : request :=
  mkRequest "POST" {[ "date" := "2024-06-10"; "time" := "9am" ]} sess.

Definition post_password (pw : string) : request :=
  mkRequest "POST" {[ "password" := pw ]} anonymous.

Definition book7 : event := mkEvent (url_book 7) today post_booking.
Definition add_slot : event := mkEvent url_admin_panel today (post_slot owner).
Definition view_index : event := mkEvent url_index today (get anonymous).

Definition alice : Booking := mkBooking 1 "Alice" "a@x.com" 7.

End Sample.

(** ** Sessions and stored Bookings *)

(* a request as the browser sends it; the session is the one the server
   keeps for that browser *)
Record hit := mkHit {
  h_url : url;
  h_today : date;
  h_method : string;
  h_POST : gmap string string;
}.

(* one request of a browser session: the view runs on the stored session
   and on the database, and what it leaves of both is stored *)
Definition serve `{!Installation} (st : gmap string bool * db) (h : hit)
    : gmap string bool * db :=
  let out := dispatch (h_url h) (h_today h)
               (mkRequest (h_method h) (h_POST h) st.1) st.2 in
  (out.1.2, out.2).

Definition serve_all `{!Installation} (st : gmap string bool * db)
    (hs : list hit) : gmap string bool * db :=
  foldl serve st hs.

(* every Booking refers to a stored Slot, and that Slot is unavailable *)
Definition bookings_consistent (d : db) : Prop :=
  ∀ b, b ∈ bookings d → booked (b_slot b) d.

(* no two Bookings for one Slot *)
Definition one_booking_per_slot (d : db) : Prop :=
  NoDup (b_slot <$> bookings d).

(** ** build_full_sceduler.py: writing the project to disk

    The file system is what lies below the working directory: a finite map
    from the list of names of a relative path to a directory or a file
    with its text.  Paths are relative and without "..", there are no
    symbolic links, and every operation is permitted.  The lines that
    create_project prints are left out. *)

Module OS.

Inductive os_error :=
| FileNotFoundError
| FileExistsError
| NotADirectoryError
| IsADirectoryError.

Inductive node :=
| Dir
| File (content : string).

(* sep.join(l) *)
Fixpoint join (sep : string) (l : list string) : string :=
  match l with
  | [] => EmptyString
  | [w] => w
  | w :: ws => String.append w (String.append sep (join sep ws))
  end.

(* s.rstrip("/") *)
Fixpoint rstrip_sep (s : string) : string :=
  match s with
  | EmptyString => EmptyString
  | String a s' =>
      match rstrip_sep s' with
      | EmptyString => if Ascii.eqb a "/" then EmptyString
                       else String a EmptyString
      | r => String a r
      end
  end.

(* posixpath.dirname(p): the text up to the last slash, without the
   slashes it ends in unless it is made of slashes only *)
Definition dirname (p : string) : string :=
  match Str.split_on "/" p with
  | [] | [_] => EmptyString
  | parts =>
      let head := String.append (join "/" (removelast parts)) "/" in
      match rstrip_sep head with
      | EmptyString => head
      | stripped => stripped
      end
  end.

(* the names a relative path walks through, from the working directory;
   the empty list is the empty path *)
Definition path_parts (p : string) : list string :=
  filter (fun c => c ≠ EmptyString ∧ c ≠ ".") (Str.split_on "/" p).

(* what the walk to the directory that is to hold [parts] finds *)
Definition parent_check (m : gmap (list string) node) (parts : list string)
    : option os_error :=
  match removelast parts with
  | [] => None
  | parent =>
      match m !! parent with
      | Some Dir => None
      | Some (File _) => Some NotADirectoryError
      | None => Some FileNotFoundError
      end
  end.

(* os.mkdir(name) *)
Definition mkdir (parts : list string) (m : gmap (list string) node)
    : option os_error * gmap (list string) node :=
  match parts with
  | [] => (Some FileNotFoundError, m)
  | _ =>
      match parent_check m parts with
      | Some e => (Some e, m)
      | None =>
          match m !! parts with
          | Some _ => (Some FileExistsError, m)
          | None => (None, <[parts := Dir]> m)
          end
      end
  end.

(* os.path.exists(head) for a head that is not empty *)
Definition exists_ (m : gmap (list string) node) (parts : list string) : bool :=
  match m !! parts with
  | Some _ => true
  | None => false
  end.

(* os.path.isdir(name); the empty path is no directory *)
Definition isdir (m : gmap (list string) node) (parts : list string) : bool :=
  match parts with
  | [] => false
  | _ =>
      match m !! parts with
      | Some Dir => true
      | _ => false
      end
  end.

(* os.makedirs(name, exist_ok=True); the argument is the list of names in
   reverse, so that head, tail = split(name) is the pattern tail :: head *)
Fixpoint makedirs_rev (rparts : list string) (m : gmap (list string) node)
    : option os_error * gmap (list string) node :=
  let name := rev rparts in
  let made : option os_error * gmap (list string) node :=
    match rparts with
    | _ :: (_ :: _) as rhead =>
        if negb (exists_ m (rev rhead)) then
          match makedirs_rev rhead m with
          | (Some FileExistsError, m') => (None, m')
          | r => r
          end
        else (None, m)
    | _ => (None, m)
    end in
  match made with
  | (Some e, m') => (Some e, m')
  | (None, m') =>
      match mkdir name m' with
      | (Some e, m'') => if isdir m'' name then (None, m'') else (Some e, m'')
      | r => r
      end
  end.

Definition makedirs (parts : list string) (m : gmap (list string) node)
    : option os_error * gmap (list string) node :=
  makedirs_rev (rev parts) m.

(* with open(path, "w") as f: f.write(content) *)
Definition open_w (parts : list string) (content : string)
    (m : gmap (list string) node)
    : option os_error * gmap (list string) node :=
  match parts with
  | [] => (Some FileNotFoundError, m)
  | _ =>
      match parent_check m parts with
      | Some e => (Some e, m)
      | None =>
          match m !! parts with
          | Some Dir => (Some IsADirectoryError, m)
          | _ => (None, <[parts := File content]> m)
          end
      end
  end.

End OS.

Module Build.

Definition BASE : string := "full_scheduler_project".

(* the keys of the dict files, in the order they are written down *)
Definition file_paths : list string :=
  (fun p => String.append BASE p) <$>
    [ "/manage.py";
      "/scheduler/__init__.py"; "/scheduler/asgi.py"; "/scheduler/settings.py";
      "/scheduler/urls.py"; "/scheduler/wsgi.py";
      "/booking/__init__.py"; "/booking/admin.py"; "/booking/models.py";
      "/booking/views.py"; "/booking/urls.py";
      "/booking/templates/base.html"; "/booking/templates/calendar.html";
      "/booking/templates/login.html"; "/booking/templates/admin_panel.html";
      "/booking/templates/book.html";
      "/booking/static/main.css"; "/booking/static/main.js" ].

(* files.items(), for the texts [content] that the script holds under
   the keys *)
Definition files (content : string -> string) : list (string * string) :=
  (fun p => (p, content p)) <$> file_paths.

(* the loop of create_project over files.items(); an exception ends it,
   what was written stays *)
Fixpoint create_project (items : list (string * string))
    (m : gmap (list string) OS.node)
    : option OS.os_error * gmap (list string) OS.node :=
  match items with
  | [] => (None, m)
  | (path, content) :: rest =>
      match OS.makedirs (OS.path_parts (OS.dirname path)) m with
      | (Some e, m1) => (Some e, m1)
      | (None, m1) =>
          match OS.open_w (OS.path_parts path) content m1 with
          | (Some e, m2) => (Some e, m2)
          | (None, m2) => create_project rest m2
          end
      end
  end.

(* the directories of the project *)
Definition project_dirs : list (list string) :=
  [ [BASE]; [BASE; "scheduler"]; [BASE; "booking"];
    [BASE; "booking"; "templates"]; [BASE; "booking"; "static"] ].

End Build.

(* the names that create_project may read or write: the directories and
   the files of the project *)
Definition project_keys (k : list string) : Prop :=
  k ∈ Build.project_dirs ∨ k ∈ (OS.path_parts <$> Build.file_paths).

(* two file systems that hold the same under the names in [K] *)
Definition agree (K : list string → Prop) (m1 m2 : gmap (list string) OS.node)
    : Prop :=
  ∀ k, K k → m1 !! k = m2 !! k.

(* every name on the way to [parts], and [parts], is in [K] *)
Definition covers (K : list string → Prop) (parts : list string) : Prop :=
  ∀ k, k `prefix_of` parts → k ≠ [] → K k.

(* the project as create_project leaves it in an empty directory *)
Definition project_tree (content : string -> string)
    : gmap (list string) OS.node :=
  (Build.create_project (Build.files content) ∅).2.

(** ** booking/urls.py: from the path of a request to the view *)

(* the view that urlpatterns gives for a path: '' is index, 'login/' is
   admin_login, 'admin_panel/' is admin_panel, 'book/<int:slot_id>/' is
   book_slot with the number read from one or more decimal digits; for
   every other path, those of the site under admin/ among them, None *)
Definition resolve (path : string) : option url :=
  match path with
  | String c rest =>
      if negb (Ascii.eqb c "/") then None
      else
        match Str.split_on "/" rest with
        | [a] => if String.eqb a "" then Some url_index else None
        | [a; b] =>
            if String.eqb b "" && String.eqb a "login" then Some url_login
            else if String.eqb b "" && String.eqb a "admin_panel"
                 then Some url_admin_panel
                 else None
        | [a; ds; b] =>
            if String.eqb b "" && String.eqb a "book"
               && negb (String.eqb ds "")
            then url_book <$> Str.int_of_digits ds
            else None
        | _ => None
        end
  | EmptyString => None
  end.

(** * Properties *)

Section properties.

Context {installed : Installation}.

(** ** The templates *)

Lemma span_length (p : ascii → bool) (s : string) :
  (String.length (DjangoTemplate.span p s).2 ≤ String.length s)%nat.
Proof.
  induction s as [|a s IH]; simpl; [done|].
  destruct (p a); [|simpl; lia].
  destruct (DjangoTemplate.span p s) as [w r]. simpl in *. lia.
Qed.

Lemma after_quote_length (q : ascii) (s r : string) :
  DjangoTemplate.after_quote q s = Some r →
  (String.length r < String.length s)%nat.
Proof.
  remember (String.length s) as n eqn:Hn. revert s r Hn.
  induction n as [n IH] using lt_wf_ind.
  intros [|a s] r Hn; simpl; [discriminate|].
  destruct (Ascii.eqb a q); [intros Hr; simplify_eq; simpl; lia|].
  destruct (DjangoTemplate.code a =? 92)%N.
  - destruct s as [|b s']; [discriminate|].
    destruct (DjangoTemplate.code b =? 10)%N; [discriminate|].
    intros Hr. apply (IH (String.length s')) in Hr; simpl in *; lia.
  - intros Hr. apply (IH (String.length s)) in Hr; simpl in *; lia.
Qed.

Lemma quoted_length (s r : string) :
  DjangoTemplate.quoted s = Some r → (String.length r < String.length s)%nat.
Proof.
  destruct s as [|q s]; simpl; [discriminate|].
  destruct (_ || _); [|discriminate].
  intros Hr. apply after_quote_length in Hr. lia.
Qed.

Lemma constant_length (s r : string) :
  DjangoTemplate.constant s = Some r → (String.length r < String.length s)%nat.
Proof.
  unfold DjangoTemplate.constant.
  destruct s as [|a [|b s]]; try apply quoted_length.
  destruct (_ && _); [|apply quoted_length].
  destruct (DjangoTemplate.quoted s) as [[|c rest]|] eqn:Hq; try discriminate.
  destruct (_ =? 41)%N; [|discriminate].
  intros Hr. simplify_eq. apply quoted_length in Hq. simpl in *. lia.
Qed.

Lemma var_length (s v r : string) :
  DjangoTemplate.var s = Some (v, r) → (String.length r < String.length s)%nat.
Proof.
  unfold DjangoTemplate.var. destruct s as [|a s]; [discriminate|].
  destruct (DjangoTemplate.is_var_char a) eqn:Ha.
  - simpl. rewrite Ha.
    pose proof (span_length DjangoTemplate.is_var_char s) as Hs.
    destruct (DjangoTemplate.span DjangoTemplate.is_var_char s) as [w r'].
    intros Hr. simplify_eq. simpl in *. lia.
  - destruct (_ || _); [|discriminate].
    destruct s as [|b s]; [discriminate|].
    destruct (DjangoTemplate.is_digit b); [|discriminate].
    match goal with
    | |- context [DjangoTemplate.span ?p s] =>
        pose proof (span_length p s) as Hs;
        destruct (DjangoTemplate.span p s) as [w r']
    end.
    intros Hr. simplify_eq. simpl in *. lia.
Qed.

Lemma filter_at_length (s name rest : string) (arg : option string) :
  DjangoTemplate.filter_at s = Some (name, arg, rest) →
  (String.length rest < String.length s)%nat.
Proof.
  unfold DjangoTemplate.filter_at.
  pose proof (span_length DjangoTemplate.is_space s) as H1.
  destruct (DjangoTemplate.span DjangoTemplate.is_space s).2 as [|a r];
    [discriminate|].
  destruct (negb _); [discriminate|].
  pose proof (span_length DjangoTemplate.is_space r) as H2.
  pose proof (span_length DjangoTemplate.is_word
                (DjangoTemplate.span DjangoTemplate.is_space r).2) as H3.
  destruct (DjangoTemplate.span DjangoTemplate.is_word _) as [nm r1].
  simpl in H1, H3.
  destruct (String.eqb nm EmptyString); [discriminate|].
  assert (Hr1 : (String.length r1 < String.length s)%nat) by lia.
  destruct r1 as [|c r2]; [intros Hr; by simplify_eq|].
  destruct (DjangoTemplate.code c =? 58)%N; [|intros Hr; by simplify_eq].
  destruct (DjangoTemplate.constant r2) as [r3|] eqn:Hc.
  { intros Hr. simplify_eq. apply constant_length in Hc. simpl in *. lia. }
  destruct (DjangoTemplate.var r2) as [[v r3]|] eqn:Hv.
  { intros Hr. simplify_eq. apply var_length in Hv. simpl in *. lia. }
  intros Hr. by simplify_eq.
Qed.

(* the fuel of [filters] never runs out: from the length of the text on,
   more fuel makes no difference *)
Lemma filters_fuel (n m : nat) (s : string) :
  (String.length s ≤ n)%nat → (String.length s ≤ m)%nat →
  DjangoTemplate.filters n s = DjangoTemplate.filters m s.
Proof.
  revert m s. induction n as [|n IH]; intros m s Hn Hm.
  { destruct s; simpl in Hn; [by destruct m|lia]. }
  destruct s as [|a s]; [by destruct m|].
  destruct m as [|m]; [simpl in Hm; lia|].
  cbn [DjangoTemplate.filters].
  destruct (DjangoTemplate.filter_at (String a s)) as [[[name arg] rest]|] eqn:Hf;
    [|done].
  apply filter_at_length in Hf.
  destruct (match arg with Some v => DjangoTemplate.Variable_new v | None => Ok tt end);
    cbn; [|done].
  destruct (bool_decide _); [|done].
  apply IH; simpl in *; lia.
Qed.

(* when render returns, it returns the page of the template *)
Lemma shortcuts_render_Ok (template_name : string) (c : context) (r : response) :
  shortcuts_render template_name c = Ok r → r = render template_name c.
Proof.
  unfold shortcuts_render.
  destruct (Template.get_template template_name); cbn; intros Heq; by simplify_eq.
Qed.

(* login.html, admin_panel.html and book.html compile *)
Lemma shortcuts_render_login (c : context) :
  shortcuts_render "login.html" c = Ok (render "login.html" c).
Proof. reflexivity. Qed.

Lemma shortcuts_render_admin_panel (c : context) :
  shortcuts_render "admin_panel.html" c = Ok (render "admin_panel.html" c).
Proof. reflexivity. Qed.

Lemma shortcuts_render_book (c : context) :
  shortcuts_render "book.html" c = Ok (render "book.html" c).
Proof. reflexivity. Qed.

(* calendar.html does not *)
Lemma shortcuts_render_calendar (c : context) :
  shortcuts_render "calendar.html" c = Raise TemplateSyntaxError.
Proof. reflexivity. Qed.

(** ** The calendar library *)

Example itermonthdates_june_2024 :
  (fun l => (length l, head l, last l)) <$>
    (match Calendar.itermonthdates 2024 6 with Ok l => Some l | _ => None end)
  = Some (35%nat, Some (Date 2024 5 27), Some (Date 2024 6 30)).
Proof. vm_compute. reflexivity. Qed.

Example itermonthdates_dec_9999 :
  Calendar.itermonthdates 9999 12 = Raise ValueError.
Proof. vm_compute. reflexivity. Qed.

Lemma rmapM_Ok_Forall2 {A B} (f : A -> result B) (l : list A) (k : list B) :
  rmapM f l = Ok k → Forall2 (fun a b => f a = Ok b) l k.
Proof.
  revert k; induction l as [|a l IH]; intros k H; simpl in H.
  - simplify_eq. constructor.
  - destruct (f a) as [b|e] eqn:Hf; [|discriminate].
    cbn in H. destruct (rmapM f l) as [bs|e] eqn:Hl; [|discriminate].
    cbn in H. simplify_eq. constructor; auto.
Qed.

Lemma date_new_Ok y m d dt : date_new y m d = Ok dt → dt = Date y m d.
Proof.
  unfold date_new. repeat case_match; intros Hd; by simplify_eq.
Qed.

Lemma _prevmonth_month y m : (Calendar._prevmonth y m).2 ≠ m.
Proof.
  unfold Calendar._prevmonth. destruct (Z.eqb_spec m 1); simpl; lia.
Qed.

Lemma _nextmonth_month y m : (Calendar._nextmonth y m).2 ≠ m.
Proof.
  unfold Calendar._nextmonth. destruct (Z.eqb_spec m 12); simpl; lia.
Qed.

(* a day of the grid that lies in the displayed month lies in the
   displayed year *)
Lemma itermonthdays3_year y m l y' m' d' :
  Calendar.itermonthdays3 y m = Ok l → (y', m', d') ∈ l → m' = m → y' = y.
Proof.
  unfold Calendar.itermonthdays3. intros H Hin Hm.
  destruct (Calendar.monthrange y m) as [[day1 ndays]|e]; [|discriminate].
  cbn in H.
  pose proof (_prevmonth_month y m) as Hp.
  pose proof (_nextmonth_month y m) as Hn.
  destruct (Calendar._prevmonth y m) as [py pm].
  destruct (Calendar._nextmonth y m) as [ny nm].
  simplify_eq. simpl in Hp, Hn.
  rewrite !elem_of_app, !list_elem_of_fmap in Hin.
  destruct Hin as [(x & Hx & _)|[(x & Hx & _)|(x & Hx & _)]];
    simplify_eq; congruence.
Qed.

Lemma itermonthdates_year y m days dt :
  Calendar.itermonthdates y m = Ok days → dt ∈ days → month dt = m → year dt = y.
Proof.
  unfold Calendar.itermonthdates. intros H Hin Hm.
  destruct (Calendar.itermonthdays3 y m) as [l|e] eqn:Hl; [|discriminate].
  cbn in H. apply rmapM_Ok_Forall2 in H.
  destruct (proj1 (list_elem_of_lookup _ _) Hin) as [i Hi].
  destruct (Forall2_lookup_r _ _ _ _ _ H Hi) as ([[y' m'] d'] & Ht & Hd).
  apply date_new_Ok in Hd. subst dt. simpl in *.
  eapply itermonthdays3_year; eauto. eapply list_elem_of_lookup_2; eauto.
Qed.

(** ** The slot map of the index view *)

Section slot_map.

Implicit Types (m : gmap (date * string) bool) (l : list Slot).

(* the entry of a cell after the comprehension depends on the rows of
   that cell only *)
Lemma foldl_put_filter (P Q : Slot → Prop)
    `{!∀ s, Decision (P s)} `{!∀ s, Decision (Q s)} k l m1 m2 :
  (∀ s, s ∈ l → (s_date s, s_time s) = k → (P s ↔ Q s)) →
  m1 !! k = m2 !! k →
  foldl slot_map_put m1 (filter P l) !! k
  = foldl slot_map_put m2 (filter Q l) !! k.
Proof.
  revert m1 m2. induction l as [|a l IH]; intros m1 m2 Hagree Hm; [done|].
  assert (Hl : ∀ s, s ∈ l → (s_date s, s_time s) = k → (P s ↔ Q s)).
  { intros s Hs. apply Hagree. by right. }
  assert (Ha : (s_date a, s_time a) = k → (P a ↔ Q a)).
  { apply Hagree. by left. }
  rewrite !filter_cons.
  destruct (decide (P a)) as [HP|HP], (decide (Q a)) as [HQ|HQ]; simpl;
    apply IH; auto; unfold slot_map_put;
    destruct (decide ((s_date a, s_time a) = k)) as [Hk|Hk];
    try (exfalso; tauto);
    rewrite ?Hk, ?lookup_insert_eq, ?lookup_insert_ne by done; done.
Qed.

End slot_map.

Lemma build_slot_map_month_year (y m : Z) (d : db) (dt : date) (t : string) :
  month dt = m → year dt = y →
  build_slot_map (Slot_objects_filter_month m d) !! (dt, t)
  = build_slot_map
      (filter (fun s => month (s_date s) = m ∧ year (s_date s) = y) (slots d))
      !! (dt, t).
Proof.
  intros Hm Hy. unfold build_slot_map, Slot_objects_filter_month.
  apply (foldl_put_filter (fun s => month (s_date s) = m)
           (fun s => month (s_date s) = m ∧ year (s_date s) = y)); [|done].
  intros s _ Hk. simplify_eq. tauto.
Qed.

(* the two ways of selecting the Slots give contexts that hold the same
   under every cell that calendar.html names *)
Lemma index_context_same_calendar (today : date) (d : db) (c : context) :
  index_context today d = Ok c →
  ∃ c', index_month_year_context today d = Ok c' ∧ same_calendar c c'.
Proof.
  unfold index_context, index_month_year_context.
  destruct (Calendar.itermonthdates (year today) (month today)) as [days|e] eqn:Hd;
    [|discriminate].
  cbn. intros Hc. simplify_eq. eexists. split; [done|].
  repeat split. intros dt t Hin Hm.
  apply build_slot_map_month_year; [done|].
  eapply itermonthdates_year; eauto.
Qed.

Lemma index_context_Raise (today : date) (d : db) (e : exn) :
  index_context today d = Raise e ↔ index_month_year_context today d = Raise e.
Proof.
  unfold index_context, index_month_year_context.
  by destruct (Calendar.itermonthdates (year today) (month today)).
Qed.

(** C10.  [index], which selects the Slots by month alone, and the view
    that selects them by month and year are answered alike: the response
    or the exception, the session and the database are the same.  The
    contexts that the two hand to render are not the same, but they hold
    the same days, month and year and the same entry of the slot map
    under every cell that calendar.html names, a day of the list that
    lies in the displayed month with any time; and when the calendar
    library raises, it raises the same in both. *)
Theorem index_month_filter_refines_month_year (today : date) (req : request) (d : db) :
  index today req d = index_month_year today req d
  ∧ match index_context today d with
    | Ok c =>
        ∃ c', index_month_year_context today d = Ok c' ∧ same_calendar c c'
    | Raise e => index_month_year_context today d = Raise e
    end.
Proof.
  split.
  - unfold index, index_month_year.
    destruct (index_context today d) as [c|e] eqn:Hc.
    + destruct (index_context_same_calendar _ _ _ Hc) as (c' & -> & _).
      cbn -[shortcuts_render]. by rewrite !shortcuts_render_calendar.
    + apply index_context_Raise in Hc. by rewrite Hc.
  - destruct (index_context today d) as [c|e] eqn:Hc.
    + by apply index_context_same_calendar.
    + by apply index_context_Raise.
Qed.

(* the contexts themselves differ: the month filter lets the Slot of
   another year into the slot map *)
Example index_contexts_differ :
  let d := mkDb [mkSlot 1 (Date 2023 6 10) "9am" false] [] in
  index_context (Date 2024 6 15) d ≠ index_month_year_context (Date 2024 6 15) d.
Proof. vm_compute. intros H0. discriminate H0. Qed.

(** ** The tables *)

Lemma next_id_fresh (ids : list Z) (x : Z) : x ∈ ids → x < next_id ids.
Proof.
  unfold next_id. induction 1 as [x l|x y l _ IH]; simpl; lia.
Qed.

Lemma get_object_or_404_Ok slot_id v d s :
  get_object_or_404 slot_id v d = Ok s →
  s ∈ slots d ∧ s_id s = slot_id ∧ s_available s = v.
Proof.
  unfold get_object_or_404.
  destruct (filter _ (slots d)) as [|r [|r' l]] eqn:Hf; intros Hs; simplify_eq.
  assert (Hin : s ∈ filter (fun s => s_id s = slot_id ∧ s_available s = v) (slots d))
    by (rewrite Hf; by left).
  apply list_elem_of_filter in Hin. tauto.
Qed.

Lemma get_object_or_404_Http404 slot_id v d :
  get_object_or_404 slot_id v d = Raise Http404
  ↔ ∀ s, s ∈ slots d → s_id s = slot_id → s_available s ≠ v.
Proof.
  unfold get_object_or_404. split.
  - destruct (filter _ (slots d)) as [|r [|r' l]] eqn:Hf; intros Hr; simplify_eq.
    intros s Hin Hid Hav.
    assert (Hs : s ∈ filter (fun s => s_id s = slot_id ∧ s_available s = v) (slots d))
      by (apply list_elem_of_filter; tauto).
    rewrite Hf in Hs. by apply elem_of_nil in Hs.
  - intros H.
    destruct (filter _ (slots d)) as [|r l] eqn:Hf; [done|].
    assert (Hr : r ∈ filter (fun s => s_id s = slot_id ∧ s_available s = v) (slots d))
      by (rewrite Hf; by left).
    apply list_elem_of_filter in Hr. destruct Hr as [[Hid Hav] Hin].
    by destruct (H r Hin Hid).
Qed.

Lemma Slot_save_member s d :
  s_id s ∈ (s_id <$> slots d) →
  Slot_save s d
  = mkDb ((fun r => if s_id r =? s_id s then s else r) <$> slots d) (bookings d).
Proof.
  intros Hin. unfold Slot_save.
  destruct (existsb _ (slots d)) eqn:He; [done|].
  apply list_elem_of_fmap in Hin as (r & Hid & Hr).
  assert (Ht : existsb (fun r => s_id r =? s_id s) (slots d) = true).
  { apply existsb_exists. exists r. split; [by apply list_elem_of_In|].
    apply Z.eqb_eq. congruence. }
  congruence.
Qed.

(* the database after both writes of a booking *)
Lemma book_slot_commit name email slot d :
  slot ∈ slots d →
  commit 2 (book_slot_writes name email slot) d
  = mkDb ((fun r => if s_id r =? s_id slot then with_available false slot else r)
            <$> slots d)
         (bookings d
          ++ [mkBooking (next_id (b_id <$> bookings d)) name email (s_id slot)]).
Proof.
  intros Hin. unfold commit, book_slot_writes. simpl.
  rewrite Slot_save_member; [done|].
  simpl. apply list_elem_of_fmap. eauto.
Qed.

(** ** One request: what it does to the database *)

Lemma step_effect (d : db) (e : event) : effect d e (step d e).
Proof.
  unfold step, dispatch. destruct e as [u today req]; simpl.
  destruct u as [| | |slot_id]; simpl.
  - constructor.
  - unfold admin_login. repeat case_decide; simpl; constructor.
  - unfold admin_panel.
    destruct (Py.truthy (session req !! "is_owner")) eqn:Ho; simpl; [|constructor].
    case_decide as Hm; [|constructor].
    destruct (POST_getitem req "date") as [dtx|]; [|constructor].
    destruct (POST_getitem req "time") as [tm|]; [|constructor].
    unfold Slot_objects_create.
    destruct (DateField_to_python dtx) as [dt|]; simpl; [|constructor].
    by apply (effect_slot d _ (mkSlot _ dt tm true)).
  - unfold book_slot.
    destruct (get_object_or_404 slot_id true d) as [slot|] eqn:Hg; [|constructor].
    apply get_object_or_404_Ok in Hg as Hs. destruct Hs as (Hin & <- & Hav).
    case_decide as Hm; [|constructor].
    destruct (POST_getitem req "name") as [name|]; [|constructor].
    destruct (POST_getitem req "email") as [email|]; [|constructor].
    cbn [snd length book_slot_writes].
    rewrite book_slot_commit by done.
    by apply effect_booking.
Qed.

Lemma pk_unique_eq (d : db) (a b : Slot) :
  pk_unique d → a ∈ slots d → b ∈ slots d → s_id a = s_id b → a = b.
Proof.
  unfold pk_unique. induction (slots d) as [|r l IH]; intros Hnd Ha Hb Hid.
  - by apply elem_of_nil in Ha.
  - rewrite fmap_cons in Hnd. apply NoDup_cons in Hnd as [Hr Hnd].
    apply elem_of_cons in Ha as [->|Ha]; apply elem_of_cons in Hb as [->|Hb];
      auto.
    + destruct Hr. rewrite Hid. apply list_elem_of_fmap; eauto.
    + destruct Hr. rewrite <- Hid. apply list_elem_of_fmap; eauto.
Qed.

Lemma effect_pk_unique d e d' : effect d e d' → pk_unique d → pk_unique d'.
Proof.
  unfold pk_unique. intros [|s _ _ _ Hid _|slot name email _ _ _ _ _] Hnd; simpl.
  - done.
  - rewrite fmap_app. apply NoDup_app. split; [done|]. split.
    + intros x Hx Hs. simpl in Hs. apply list_elem_of_singleton in Hs.
      apply next_id_fresh in Hx. lia.
    + simpl. apply NoDup_singleton.
  - rewrite <- list_fmap_compose.
    erewrite list_fmap_ext; [exact Hnd|].
    intros i r _. simpl. destruct (Z.eqb_spec (s_id r) (s_id slot)); simpl; congruence.
Qed.

Lemma run_pk_unique d es : pk_unique d → pk_unique (run d es).
Proof.
  revert d. induction es as [|e es IH]; intros d Hd; [done|].
  simpl. apply IH. eapply effect_pk_unique; [apply step_effect|done].
Qed.

Lemma effect_booked slot_id d e d' :
  effect d e d' → booked slot_id d → booked slot_id d'.
Proof.
  intros Heff [(s0 & Hin0 & Hid0) Hall].
  destruct Heff as [|s _ _ _ Hid _|slot name email _ _ _ _ _]; simpl.
  - by split; [exists s0|].
  - split; [exists s0; split; [apply elem_of_app; by left|done]|].
    intros r Hr Hrid. apply elem_of_app in Hr as [Hr|Hr]; [by apply Hall|].
    apply list_elem_of_singleton in Hr. subst r.
    assert (s_id s0 < next_id (s_id <$> slots d))
      by (apply next_id_fresh, list_elem_of_fmap; eauto).
    lia.
  - split.
    + eexists. split; [apply list_elem_of_fmap; eexists; split; [reflexivity|exact Hin0]|].
      simpl. destruct (Z.eqb_spec (s_id s0) (s_id slot)); simpl; congruence.
    + intros r Hr Hrid. apply list_elem_of_fmap in Hr as (r0 & -> & Hr0).
      destruct (Z.eqb_spec (s_id r0) (s_id slot)); [done|]. by apply Hall.
Qed.

Lemma run_booked slot_id d es : booked slot_id d → booked slot_id (run d es).
Proof.
  revert d. induction es as [|e es IH]; intros d Hd; [done|].
  simpl. apply IH. eapply effect_booked; [apply step_effect|done].
Qed.

(* the request that adds a Booking leaves the Slot of that Booking booked *)
Lemma effect_new_booking d e d' b :
  effect d e d' → bookings d' = bookings d ++ [b] → booked (b_slot b) d'.
Proof.
  intros [|s _ _ _ _ _|slot name email _ _ Hin _ _]; simpl; intros Hb.
  - apply (f_equal length) in Hb. rewrite length_app in Hb. simpl in Hb. lia.
  - apply (f_equal length) in Hb. rewrite length_app in Hb. simpl in Hb. lia.
  - apply app_inv_head in Hb. simplify_eq. simpl. split.
    + eexists. split; [apply list_elem_of_fmap; eexists; split; [reflexivity|exact Hin]|].
      simpl. by rewrite Z.eqb_refl.
    + intros r Hr Hrid. apply list_elem_of_fmap in Hr as (r0 & -> & Hr0).
      destruct (Z.eqb_spec (s_id r0) (s_id slot)); [done|]. congruence.
Qed.

(* a row keeps its place and its key; its availability changes only from
   true to false and only under a POST to its booking page *)
Lemma effect_rows d e d' (i : nat) (s : Slot) :
  effect d e d' → slots d !! i = Some s →
  ∃ s', slots d' !! i = Some s' ∧ s_id s' = s_id s
        ∧ (s_available s = false → s_available s' = false)
        ∧ (s_available s' ≠ s_available s →
           s_available s' = false ∧ ev_url e = url_book (s_id s)
           ∧ method (ev_request e) = "POST").
Proof.
  intros [|s1 _ _ _ _ _|slot name email Hu Hm _ _ _] Hi; simpl.
  - exists s. by repeat split.
  - exists s. split; [by apply lookup_app_l_Some|]. by repeat split.
  - rewrite list_lookup_fmap, Hi. simpl.
    destruct (Z.eqb_spec (s_id s) (s_id slot)) as [Hid|Hid].
    + eexists. split; [reflexivity|]. simpl. repeat split; auto; congruence.
    + exists s. by repeat split.
Qed.

Lemma run_rows d es (i : nat) (s : Slot) :
  slots d !! i = Some s →
  ∃ s', slots (run d es) !! i = Some s' ∧ s_id s' = s_id s
        ∧ (s_available s = false → s_available s' = false).
Proof.
  revert d s. induction es as [|e es IH]; intros d s Hi; [by exists s|].
  simpl. destruct (effect_rows d e _ i s (step_effect d e) Hi)
    as (s1 & Hi1 & Hid1 & Hav1 & _).
  destruct (IH _ _ Hi1) as (s2 & Hi2 & Hid2 & Hav2).
  exists s2. repeat split; [done|congruence|auto].
Qed.

(** C1.  Once a request has added a Booking, the Slot of that Booking
    exists and is unavailable in every state reached by any further
    requests; along any sequence of requests a row of the Slot table keeps
    its place and key and, once unavailable, stays unavailable; and a
    request changes the availability of a row only to false and only as a
    POST to the booking page of that row. *)
Theorem slot_unavailable_is_permanent :
  (∀ (d : db) (e : event) (b : Booking) (es : list event),
      bookings (step d e) = bookings d ++ [b] →
      booked (b_slot b) (run (step d e) es))
  ∧ (∀ (d : db) (es : list event) (i : nat) (s : Slot),
      slots d !! i = Some s →
      ∃ s', slots (run d es) !! i = Some s' ∧ s_id s' = s_id s
            ∧ (s_available s = false → s_available s' = false))
  ∧ (∀ (d : db) (e : event) (i : nat) (s s' : Slot),
      slots d !! i = Some s → slots (step d e) !! i = Some s' →
      s_available s' ≠ s_available s →
      s_available s' = false ∧ ev_url e = url_book (s_id s)
      ∧ method (ev_request e) = "POST").
Proof.
  split; [|split].
  - intros d e b es Hb. apply run_booked.
    eapply effect_new_booking; [apply step_effect|done].
  - intros d es i s. apply run_rows.
  - intros d e i s s' Hi Hi' Hne.
    destruct (effect_rows d e _ i s (step_effect d e) Hi) as (s1 & Hi1 & _ & _ & H).
    rewrite Hi' in Hi1. simplify_eq. by apply H.
Qed.

(** C3.  With a primary key that identifies rows, the lookup of the
    booking page raises Http404 exactly when no Slot has the id or the
    Slot with the id is unavailable; [book_slot] answers Http404 exactly
    when that lookup does, whatever the method; and once a request has
    added a Booking, every later request to the booking page of its Slot
    answers Http404 and leaves session and database as they are. *)
Theorem bookable_lookup_not_found :
  (∀ (d : db) (slot_id : Z),
      pk_unique d →
      get_object_or_404 slot_id true d = Raise Http404
      ↔ (¬ (∃ s, s ∈ slots d ∧ s_id s = slot_id))
        ∨ (∃ s, s ∈ slots d ∧ s_id s = slot_id ∧ s_available s = false))
  ∧ (∀ (d : db) (slot_id : Z) (req : request),
      book_slot slot_id req d = (Raise Http404, session req, d)
      ↔ get_object_or_404 slot_id true d = Raise Http404)
  ∧ (∀ (d : db) (e : event) (b : Booking) (es : list event) (req : request),
      bookings (step d e) = bookings d ++ [b] →
      book_slot (b_slot b) req (run (step d e) es)
      = (Raise Http404, session req, run (step d e) es)).
Proof.
  assert (Hbook : ∀ d slot_id req,
            get_object_or_404 slot_id true d = Raise Http404 →
            book_slot slot_id req d = (Raise Http404, session req, d)).
  { intros d slot_id req Hg. unfold book_slot. by rewrite Hg. }
  split; [|split].
  - intros d slot_id Hpk. rewrite get_object_or_404_Http404. split.
    + intros Hall.
      destruct (decide (Exists (fun s => s_id s = slot_id) (slots d))) as [He|He].
      * right. apply Exists_exists in He as (s & Hin & Hid).
        exists s. repeat split; auto.
        specialize (Hall s Hin Hid). by destruct (s_available s).
      * left. intros (s & Hin & Hid). apply He, Exists_exists. eauto.
    + intros [Hno|(s & Hin & Hid & Hav)] r Hr Hrid.
      * destruct Hno. eauto.
      * assert (r = s) by (eapply pk_unique_eq; eauto; congruence).
        subst r. by rewrite Hav.
  - intros d slot_id req. split; [|apply Hbook].
    unfold book_slot, POST_getitem.
    destruct (get_object_or_404 slot_id true d) as [slot|ex]; [|congruence].
    destruct (decide (method req = "POST")); [|intros Heq; discriminate Heq].
    destruct (POST req !! "name"); [|intros Heq; discriminate Heq].
    destruct (POST req !! "email"); intros Heq; discriminate Heq.
  - intros d e b es req Hb. apply Hbook, get_object_or_404_Http404.
    assert (Hbk : booked (b_slot b) (run (step d e) es)).
    { apply run_booked. eapply effect_new_booking; [apply step_effect|done]. }
    intros s Hin Hid. rewrite (proj2 Hbk s Hin Hid). discriminate.
Qed.

(** C9.  A request to the booking page whose method is not POST leaves
    the database and the session as they are.  A POST that succeeds (it
    answers with the redirect to the calendar) adds exactly one Booking,
    for the targeted Slot, after the Bookings that were there, and
    changes nothing in the Slot table but the availability of the row
    with the targeted id: all other rows, and the id, date and time of
    that row, are as before. *)
Theorem book_slot_frame :
  (∀ (slot_id : Z) (req : request) (d : db),
      method req ≠ "POST" →
      (book_slot slot_id req d).2 = d
      ∧ (book_slot slot_id req d).1.2 = session req)
  ∧ (∀ (slot_id : Z) (req : request) (d d' : db) (sess : gmap string bool),
      pk_unique d →
      book_slot slot_id req d = (Ok (redirect "/"), sess, d') →
      method req = "POST" ∧ sess = session req
      ∧ (∃ b, bookings d' = bookings d ++ [b] ∧ b_slot b = slot_id)
      ∧ slots d'
        = (fun r => if s_id r =? slot_id then with_available false r else r)
            <$> slots d).
Proof.
  split.
  - intros slot_id req d Hm. unfold book_slot.
    destruct (get_object_or_404 slot_id true d); [|done].
    by destruct (decide (method req = "POST")).
  - intros slot_id req d d' sess Hpk. unfold book_slot, POST_getitem.
    destruct (get_object_or_404 slot_id true d) as [slot|] eqn:Hg;
      [|intros Heq; discriminate Heq].
    apply get_object_or_404_Ok in Hg as (Hin & <- & Hav).
    destruct (decide (method req = "POST")) as [Hm|]; [|intros Heq; discriminate Heq].
    destruct (POST req !! "name") as [name|]; [|intros Heq; discriminate Heq].
    destruct (POST req !! "email") as [email|]; [|intros Heq; discriminate Heq].
    cbn [length book_slot_writes]. rewrite book_slot_commit by done.
    intros Heq. simplify_eq. simpl.
    split; [done|]. split; [done|]. split; [by eexists|].
    apply list_fmap_ext. intros i r Hr. simpl.
    destruct (Z.eqb_spec (s_id r) (s_id slot)) as [Hid|]; [|done].
    assert (r = slot) as ->; [|done].
    eapply pk_unique_eq; eauto. eapply list_elem_of_lookup_2; eauto.
Qed.

(** C4 (as the code has it).  For a Slot that the lookup of the booking
    page returns, the POST branch performs two writes one after the
    other: first the insertion of the Booking, then the save of the Slot
    with available set to false.  After the first write alone the Booking
    is stored and refers to the Slot, the Slot table is untouched (the
    Slot is still available) and the Slot is not an orphan; after both
    writes the Slot is booked and is not an orphan either; and the
    database the view leaves is the one after both writes. *)
Theorem booking_is_written_before_flip
    (d : db) (slot_id : Z) (slot : Slot) (name email : string) :
  get_object_or_404 slot_id true d = Ok slot →
  let ws := book_slot_writes name email slot in
  length ws = 2%nat
  ∧ (∃ b, commit 1 ws d = mkDb (slots d) (bookings d ++ [b])
          ∧ b_slot b = slot_id ∧ b_name b = name ∧ b_email b = email)
  ∧ (slot ∈ slots (commit 1 ws d) ∧ s_available slot = true)
  ∧ orphan slot_id (commit 1 ws d) = false
  ∧ booked slot_id (commit 2 ws d)
  ∧ orphan slot_id (commit 2 ws d) = false
  ∧ (∀ req : request,
       method req = "POST" →
       POST req !! "name" = Some name → POST req !! "email" = Some email →
       book_slot slot_id req d = (Ok (redirect "/"), session req, commit 2 ws d)).
Proof.
  intros Hg ws. pose proof (get_object_or_404_Ok _ _ _ _ Hg) as (Hin & <- & Hav).
  assert (Hno : ∀ l b, b_slot b = s_id slot →
            forallb (fun b => negb (b_slot b =? s_id slot)) (l ++ [b]) = false).
  { intros l b Hb. rewrite forallb_app. simpl.
    rewrite Hb, Z.eqb_refl. simpl. apply andb_false_r. }
  split; [done|]. split; [by eexists|]. split; [done|]. split.
  { unfold orphan, ws, commit. simpl. rewrite Hno by done. apply andb_false_r. }
  subst ws. rewrite book_slot_commit by done. split; [|split].
  - split.
    + eexists. split; [apply list_elem_of_fmap; eexists; split; [reflexivity|exact Hin]|].
      simpl. by rewrite Z.eqb_refl.
    + simpl. intros r Hr Hrid. apply list_elem_of_fmap in Hr as (r0 & -> & Hr0).
      destruct (Z.eqb_spec (s_id r0) (s_id slot)); [done|]. congruence.
  - unfold orphan. simpl. rewrite Hno by done. apply andb_false_r.
  - intros req Hm Hn He. unfold book_slot, POST_getitem.
    rewrite Hg, Hn, He. destruct (decide (method req = "POST")); [|done].
    cbn [length book_slot_writes]. by rewrite book_slot_commit.
Qed.

(* the claim as the specification has it fails: interrupted between the
   two writes, the database holds the Booking of Alice for Slot 7, Slot 7
   is still available, and no Slot is unavailable without a Booking *)
Lemma interrupted_booking_counterexample :
  let ws := book_slot_writes "Alice" "a@x.com" Sample.slot7 in
  get_object_or_404 7 true Sample.db0 = Ok Sample.slot7
  ∧ commit 1 ws Sample.db0 = mkDb [Sample.slot7; Sample.slot8; Sample.slot9]
                                  [Sample.alice]
  ∧ s_available Sample.slot7 = true
  ∧ orphan 7 (commit 1 ws Sample.db0) ≠ true.
Proof. vm_compute. repeat split; discriminate. Qed.

(** ** Dates as text *)

Lemma digit_char_spec (k : Z) :
  0 ≤ k ≤ 9 →
  Str.digit_val (digit_char k) = Some k ∧ Ascii.eqb "-" (digit_char k) = false.
Proof.
  intros Hk.
  assert (k = 0 ∨ k = 1 ∨ k = 2 ∨ k = 3 ∨ k = 4 ∨ k = 5 ∨ k = 6 ∨ k = 7
          ∨ k = 8 ∨ k = 9) as Hc by lia.
  repeat destruct Hc as [->|Hc]; try subst k; by vm_compute.
Qed.

(* ten characters, digits around two hyphens, read as a date *)
Lemma DateField_to_python_digits (c1 c2 c3 c4 c5 c6 c7 c8 : ascii)
    (v1 v2 v3 v4 v5 v6 v7 v8 : Z) :
  Forall (fun cv => Str.digit_val cv.1 = Some cv.2 ∧ Ascii.eqb "-" cv.1 = false)
    [(c1, v1); (c2, v2); (c3, v3); (c4, v4); (c5, v5); (c6, v6); (c7, v7); (c8, v8)] →
  DateField_to_python
    (String c1 (String c2 (String c3 (String c4 (String "-"
       (String c5 (String c6 (String "-"
          (String c7 (String c8 EmptyString))))))))))
  = match date_new (10 * (10 * (10 * (10 * 0 + v1) + v2) + v3) + v4)
                   (10 * (10 * 0 + v5) + v6) (10 * (10 * 0 + v7) + v8) with
    | Ok dt => Ok dt
    | Raise _ => Raise ValidationError
    end.
Proof.
  rewrite !Forall_cons. cbn [fst snd].
  intros ((D1 & E1) & (D2 & E2) & (D3 & E3) & (D4 & E4) & (D5 & E5)
          & (D6 & E6) & (D7 & E7) & (D8 & E8) & _).
  unfold DateField_to_python, Str.split_on.
  cbn -[Ascii.eqb Str.digit_val Z.mul Z.add date_new].
  repeat match goal with
         | Hc : Ascii.eqb "-" ?c = false |- _ => rewrite Hc; clear Hc
         end.
  rewrite Ascii.eqb_refl.
  cbn -[Ascii.eqb Str.digit_val Z.mul Z.add date_new].
  unfold Str.int_of_digits.
  cbn -[Ascii.eqb Str.digit_val Z.mul Z.add date_new].
  repeat match goal with
         | Hc : Str.digit_val ?c = Some _ |- _ => rewrite Hc; clear Hc
         end.
  reflexivity.
Qed.

Lemma _days_in_month_le (y m : Z) : 1 ≤ m ≤ 12 → _days_in_month y m ≤ 31.
Proof.
  intros Hm. unfold _days_in_month.
  destruct ((m =? 2) && _is_leap y); [lia|].
  assert (m = 1 ∨ m = 2 ∨ m = 3 ∨ m = 4 ∨ m = 5 ∨ m = 6 ∨ m = 7 ∨ m = 8
          ∨ m = 9 ∨ m = 10 ∨ m = 11 ∨ m = 12) as Hc by lia.
  repeat destruct Hc as [->|Hc]; try subst m; by vm_compute.
Qed.

Lemma date_valid_bounds (dt : date) :
  date_valid dt →
  1 ≤ year dt ≤ 9999 ∧ 1 ≤ month dt ≤ 12 ∧ 1 ≤ day dt ≤ 31.
Proof.
  unfold date_valid, date_new, MINYEAR, MAXYEAR.
  destruct (Z.leb_spec 1 (year dt)), (Z.leb_spec (year dt) 9999); simpl;
    try discriminate.
  destruct (Z.leb_spec 1 (month dt)), (Z.leb_spec (month dt) 12); simpl;
    try discriminate.
  destruct (Z.leb_spec 1 (day dt)),
    (Z.leb_spec (day dt) (_days_in_month (year dt) (month dt))); simpl;
    try discriminate.
  intros _. pose proof (_days_in_month_le (year dt) (month dt)). lia.
Qed.

(* the text of a date reads back as that date *)
Lemma DateField_to_python_isoformat (dt : date) :
  date_valid dt → DateField_to_python (isoformat dt) = Ok dt.
Proof.
  intros Hv. pose proof (date_valid_bounds dt Hv) as (Hy & Hm & Hd).
  cbv [isoformat zfill4 zfill2 String.append].
  rewrite (DateField_to_python_digits _ _ _ _ _ _ _ _
             (year dt / 1000 mod 10) (year dt / 100 mod 10)
             (year dt / 10 mod 10) (year dt mod 10)
             (month dt / 10 mod 10) (month dt mod 10)
             (day dt / 10 mod 10) (day dt mod 10)).
  - replace (10 * (10 * (10 * (10 * 0 + year dt / 1000 mod 10)
                        + year dt / 100 mod 10) + year dt / 10 mod 10)
             + year dt mod 10) with (year dt)
      by (clear -Hy; Z.div_mod_to_equations; lia).
    replace (10 * (10 * 0 + month dt / 10 mod 10) + month dt mod 10)
      with (month dt) by (clear -Hm; Z.div_mod_to_equations; lia).
    replace (10 * (10 * 0 + day dt / 10 mod 10) + day dt mod 10)
      with (day dt) by (clear -Hd; Z.div_mod_to_equations; lia).
    by rewrite Hv.
  - repeat (constructor;
            [cbn [fst snd]; apply digit_char_spec;
             match goal with
             | |- _ ≤ ?a `mod` 10 ≤ _ => pose proof (Z.mod_pos_bound a 10); lia
             end|]).
    constructor.
Qed.

(** ** The owner gate *)

(* what the admin panel shows to the owner on a request that is no POST *)
Lemma admin_panel_owner_get req d :
  Py.truthy (session req !! "is_owner") = true → method req ≠ "POST" →
  admin_panel req d
  = (Ok (render "admin_panel.html"
           (admin_panel_context (Slot_objects_order_by_date d))),
     session req, d).
Proof.
  intros Ho Hm. unfold admin_panel. rewrite Ho. simpl.
  by destruct (decide (method req = "POST")).
Qed.

Lemma admin_panel_owner_no_redirect req d :
  Py.truthy (session req !! "is_owner") = true →
  (admin_panel req d).1.1 ≠ Ok (redirect "/login/").
Proof.
  intros Ho. unfold admin_panel. rewrite Ho. simpl.
  destruct (decide (method req = "POST")); [|done].
  destruct (POST_getitem req "date"); [|done].
  destruct (POST_getitem req "time"); [|done].
  by destruct (Slot_objects_create _ _ _ _) as [[]].
Qed.

Lemma admin_panel_not_owner req d :
  Py.truthy (session req !! "is_owner") = false →
  admin_panel req d = (Ok (redirect "/login/"), session req, d).
Proof. intros Ho. unfold admin_panel. by rewrite Ho. Qed.

(** C5.  A POST to the login page with the owner password redirects to
    /admin_panel/ and leaves the session with is_owner set to True; with
    that session the admin panel never redirects to the login page, and a
    request that is no POST gets the slot list.  With any other password,
    or none, the login form is rendered again and the session is as it
    was; if is_owner was not set, the admin panel with that session
    redirects to the login page. *)
Theorem owner_login_gate :
  (∀ (req : request) (d : db),
      method req = "POST" →
      POST req !! "password" = Some OWNER_PASSWORD →
      ∃ sess',
        admin_login req d = (Ok (redirect "/admin_panel/"), sess', d)
        ∧ sess' !! "is_owner" = Some true
        ∧ ∀ (req' : request) (d' : db),
            session req' = sess' →
            (admin_panel req' d').1.1 ≠ Ok (redirect "/login/")
            ∧ (method req' ≠ "POST" →
               admin_panel req' d'
               = (Ok (render "admin_panel.html"
                        (admin_panel_context (Slot_objects_order_by_date d'))),
                  sess', d')))
  ∧ (∀ (req : request) (d : db),
      POST req !! "password" ≠ Some OWNER_PASSWORD →
      admin_login req d = (Ok (render "login.html" no_context), session req, d)
      ∧ (Py.truthy (session req !! "is_owner") = false →
         ∀ (req' : request) (d' : db),
           session req' = session req →
           admin_panel req' d' = (Ok (redirect "/login/"), session req', d'))).
Proof.
  split.
  - intros req d Hm Hp. eexists. split; [|split].
    + unfold admin_login. rewrite decide_True by done. by rewrite decide_True.
    + apply lookup_insert_eq.
    + intros req' d' Hs.
      assert (Ho : Py.truthy (session req' !! "is_owner") = true)
        by (by rewrite Hs, lookup_insert_eq).
      split; [by apply admin_panel_owner_no_redirect|].
      intros Hm'. rewrite <- Hs. by apply admin_panel_owner_get.
  - intros req d Hp. split.
    + unfold admin_login. destruct (decide (method req = "POST")); [|done].
      by rewrite decide_False.
    + intros Ho req' d' Hs. apply admin_panel_not_owner. by rewrite Hs.
Qed.

(** C6.  A request to the admin panel, a POST in particular, from a
    session in which is_owner is not set is answered with the redirect to
    /login/; no Slot is created and the database and the session are as
    they were. *)
Theorem admin_panel_unauthorized (req : request) (d : db) :
  method req = "POST" →
  Py.truthy (session req !! "is_owner") = false →
  admin_panel req d = (Ok (redirect "/login/"), session req, d)
  ∧ (admin_panel req d).2 = d
  ∧ slots (admin_panel req d).2 = slots d.
Proof.
  intros _ Ho. rewrite admin_panel_not_owner by done. done.
Qed.

(** C7.  For a Slot that is stored, a POST to the admin panel from the
    owner's session with a date field that reads as the date of that Slot
    and the same time is served: the slot list is rendered, and the Slot
    table is the old one followed by one new row with that date and time,
    available, under a key that no stored row has.  Such a request exists
    for every stored Slot whose date is a date of the calendar: the one
    that carries the date in the form year-month-day. *)
Theorem duplicate_slot_is_created :
  (∀ (d : db) (s : Slot) (req : request) (date_text : string),
      s ∈ slots d →
      Py.truthy (session req !! "is_owner") = true →
      method req = "POST" →
      POST req !! "date" = Some date_text →
      DateField_to_python date_text = Ok (s_date s) →
      POST req !! "time" = Some (s_time s) →
      adds_duplicate_of s req d)
  ∧ (∀ (d : db) (s : Slot) (sess : gmap string bool),
      s ∈ slots d →
      date_valid (s_date s) →
      Py.truthy (sess !! "is_owner") = true →
      adds_duplicate_of s
        (mkRequest "POST"
           {[ "date" := isoformat (s_date s); "time" := s_time s ]} sess) d).
Proof.
  assert (Hgen : ∀ d s req date_text,
            s ∈ slots d → Py.truthy (session req !! "is_owner") = true →
            method req = "POST" → POST req !! "date" = Some date_text →
            DateField_to_python date_text = Ok (s_date s) →
            POST req !! "time" = Some (s_time s) → adds_duplicate_of s req d).
  { intros d s req date_text Hin Ho Hm Hd Hp Ht.
    assert (Hfresh : ∀ r, r ∈ slots d → s_id r ≠ next_id (s_id <$> slots d)).
    { intros r Hr. assert (s_id r < next_id (s_id <$> slots d)); [|lia].
      apply next_id_fresh, list_elem_of_fmap. eauto. }
    exists (mkSlot (next_id (s_id <$> slots d)) (s_date s) (s_time s) true).
    simpl. split; [|repeat split; auto].
    - unfold admin_panel, POST_getitem, Slot_objects_create.
      rewrite Ho, Hd, Ht, Hp. simpl. by destruct (decide (method req = "POST")).
    - intros Heq. apply (Hfresh s Hin). by rewrite <- Heq. }
  split; [exact Hgen|].
  intros d s sess Hin Hv Ho.
  apply (Hgen d s _ (isoformat (s_date s))); [done|done|done| | |].
  - apply lookup_insert_eq.
  - by apply DateField_to_python_isoformat.
  - cbn [POST]. rewrite lookup_insert_ne by done. apply lookup_singleton_eq.
Qed.

Example duplicate_slot_sample :
  (admin_panel (Sample.post_slot Sample.owner) Sample.db0).2
  = mkDb [Sample.slot7; Sample.slot8; Sample.slot9;
          mkSlot 10 (Date 2024 6 10) "9am" true] [].
Proof. vm_compute. reflexivity. Qed.

(** ** The slot list of the admin panel *)

Lemma date_leb_total (a b : date) : date_leb a b = false → date_leb b a = true.
Proof.
  unfold date_leb. destruct a as [ya ma da], b as [yb mb db']; simpl.
  destruct (Z.ltb_spec ya yb), (Z.eqb_spec ya yb), (Z.ltb_spec ma mb),
    (Z.eqb_spec ma mb), (Z.leb_spec da db'), (Z.ltb_spec yb ya),
    (Z.eqb_spec yb ya), (Z.ltb_spec mb ma), (Z.eqb_spec mb ma),
    (Z.leb_spec db' da); simpl; intros; try done; lia.
Qed.

Section order_by.

Lemma insert_by_date_HdRel r s l :
  slot_date_le r s → HdRel slot_date_le r l → HdRel slot_date_le r (insert_by_date s l).
Proof.
  intros Hrs Hl. destruct l as [|x l]; simpl; [by constructor|].
  inversion_clear Hl. destruct (date_leb (s_date x) (s_date s));
    by constructor.
Qed.

Lemma insert_by_date_Sorted s l :
  Sorted slot_date_le l → Sorted slot_date_le (insert_by_date s l).
Proof.
  induction 1 as [|x l Hl IH Hx]; simpl; [by repeat constructor|].
  destruct (date_leb (s_date x) (s_date s)) eqn:Hxs.
  - constructor; [done|]. by apply insert_by_date_HdRel.
  - constructor; [by constructor|]. constructor. by apply date_leb_total.
Qed.

Lemma insert_by_date_Permutation s l : insert_by_date s l ≡ₚ s :: l.
Proof.
  induction l as [|x l IH]; simpl; [done|].
  destruct (date_leb (s_date x) (s_date s)); [|done].
  rewrite IH. apply perm_swap.
Qed.

Lemma foldl_insert_by_date acc l :
  Sorted slot_date_le acc →
  Sorted slot_date_le (foldl (fun acc s => insert_by_date s acc) acc l)
  ∧ foldl (fun acc s => insert_by_date s acc) acc l ≡ₚ acc ++ l.
Proof.
  revert acc. induction l as [|s l IH]; intros acc Hacc; simpl.
  - by rewrite app_nil_r.
  - destruct (IH (insert_by_date s acc)) as [Hs Hp];
      [by apply insert_by_date_Sorted|].
    split; [done|]. rewrite Hp, insert_by_date_Permutation.
    simpl. apply Permutation_middle.
Qed.

Lemma Sorted_adjacent (l : list Slot) (i : nat) (a b : Slot) :
  Sorted slot_date_le l → l !! i = Some a → l !! S i = Some b → slot_date_le a b.
Proof.
  intros Hl. revert i. induction Hl as [|x l Hl IH Hx]; intros i Ha Hb; [done|].
  destruct i as [|i]; simpl in *.
  - simplify_eq. destruct l as [|y l]; [done|]. simpl in Hb. simplify_eq.
    by inversion_clear Hx.
  - by apply (IH i).
Qed.

End order_by.

Lemma Slot_objects_order_by_date_spec (d : db) :
  date_ascending (Slot_objects_order_by_date d)
  ∧ Slot_objects_order_by_date d ≡ₚ slots d.
Proof.
  unfold Slot_objects_order_by_date.
  destruct (foldl_insert_by_date [] (slots d)) as [Hs Hp]; [constructor|].
  split; [|done]. intros i a b. by apply Sorted_adjacent.
Qed.

(** C8.  Whenever the admin panel renders its page, the slot list it
    passes to the template is the Slot table ordered by date: each row is
    dated no later than the row after it, and the list is a rearrangement
    of the rows stored when the view returns. *)
Theorem admin_panel_lists_slots_by_date
    (req : request) (d d' : db) (template : string) (all_slots : list Slot)
    (sess : gmap string bool) :
  admin_panel req d
  = (Ok (render template (admin_panel_context all_slots)), sess, d') →
  all_slots = Slot_objects_order_by_date d'
  ∧ date_ascending all_slots
  ∧ all_slots ≡ₚ slots d'.
Proof.
  intros H.
  assert (all_slots = Slot_objects_order_by_date d') as ->.
  { revert H. unfold admin_panel.
    destruct (Py.truthy (session req !! "is_owner")); simpl;
      [|intros Heq; discriminate Heq].
    rewrite shortcuts_render_admin_panel.
    destruct (decide (method req = "POST")); [|intros Heq; by simplify_eq].
    destruct (POST_getitem req "date"); [|intros Heq; discriminate Heq].
    destruct (POST_getitem req "time"); [|intros Heq; discriminate Heq].
    destruct (Slot_objects_create _ _ _ _) as [[]];
      rewrite ?shortcuts_render_admin_panel; intros Heq; by simplify_eq. }
  split; [done|]. apply Slot_objects_order_by_date_spec.
Qed.

(** ** The calendar page *)

(* the expressions of calendar.html up to the list of times compile *)
Example calendar_html_first_expressions :
  rmapM DjangoTemplate.FilterExpression
    [ "'base.html'"; "month"; "year"; "days"; "day.month"; "month"; "day.day" ]
  = Ok [tt; tt; tt; tt; tt; tt; tt]
  ∧ DjangoTemplate.FilterExpression "slot_map|get_item:(day,time)"
    = Raise TemplateSyntaxError
  ∧ DjangoTemplate.FilterExpression "slot_map|yesno:'1,0'" = Ok tt.
Proof. repeat split. Qed.

(** C2 (what the code does).  calendar.html does not compile: the list
    of times of its inner loop is written as a string followed by .split,
    which the template engine does not read as an expression, so loading
    the template raises TemplateSyntaxError.  Whatever the context,
    render raises for calendar.html, and whatever the day, the request
    and the Slots that are stored, an exception escapes [index]: GET /
    never shows a page, hence neither the link of an available Slot nor
    the disabled control of an unavailable one.  On the sample database,
    which holds the available Slot 7 in the displayed month, the
    exception is TemplateSyntaxError. *)
Theorem calendar_template_does_not_compile :
  DjangoTemplate.FilterExpression "'9am 10am 11am 12pm 1pm 2pm 3pm 4pm'.split"
  = Raise TemplateSyntaxError
  ∧ (∀ c : context, shortcuts_render "calendar.html" c = Raise TemplateSyntaxError)
  ∧ (∀ (today : date) (req : request) (d : db),
       ∃ e, index today req d = (Raise e, session req, d))
  ∧ index Sample.today (Sample.get Sample.anonymous) Sample.db0
    = (Raise TemplateSyntaxError, Sample.anonymous, Sample.db0).
Proof.
  split; [reflexivity|]. split; [apply shortcuts_render_calendar|]. split.
  - intros today req d. unfold index.
    destruct (index_context today d) as [c|e]; cbn; eauto.
  - reflexivity.
Qed.

(** ** The scenarios of the specification *)

Example scenario_book_open_slot :
  book_slot 7 (Sample.get Sample.anonymous) Sample.db0
  = (Ok (render "book.html" (book_context Sample.slot7)), Sample.anonymous, Sample.db0)
  ∧ book_slot 7 Sample.post_booking Sample.db0
    = (Ok (redirect "/"), Sample.anonymous,
       mkDb [with_available false Sample.slot7; Sample.slot8; Sample.slot9]
            [Sample.alice]).
Proof. split; vm_compute; reflexivity. Qed.

Example scenario_book_twice :
  let d1 := step Sample.db0 Sample.book7 in
  book_slot 7 Sample.post_booking d1 = (Raise Http404, Sample.anonymous, d1)
  ∧ book_slot 7 Sample.post_booking (step d1 Sample.book7)
    = (Raise Http404, Sample.anonymous, d1).
Proof. split; vm_compute; reflexivity. Qed.

Example DateField_to_python_samples :
  DateField_to_python "2024-06-10" = Ok (Date 2024 6 10)
  ∧ DateField_to_python "2024-6-1" = Ok (Date 2024 6 1)
  ∧ DateField_to_python "2024-02-30" = Raise ValidationError
  ∧ DateField_to_python "2024-13-01" = Raise ValidationError
  ∧ DateField_to_python "20240610"
    = match other_date_text "20240610" with
      | Some dt => Ok dt
      | None => Raise ValidationError
      end.
Proof. repeat split. Qed.

(** * Further properties of the views *)

(** ** Bookings *)

Lemma effect_bookings d e d' :
  effect d e d' →
  bookings d' = bookings d
  ∨ ∃ b, bookings d' = bookings d ++ [b]
         ∧ ev_url e = url_book (b_slot b) ∧ method (ev_request e) = "POST"
         ∧ ∃ s, s ∈ slots d ∧ s_id s = b_slot b ∧ s_available s = true.
Proof.
  intros [|s _ _ _ _ _|slot name email Hu Hm Hin Hav _]; simpl; [by left..|].
  right. eexists. split; [done|]. simpl. eauto 10.
Qed.

(** X1.  Stored Bookings are never changed or removed: along any sequence
    of requests the Booking table only grows at its end, and one request
    adds at most one Booking, which it does only as a POST to the booking
    page of the Slot that the Booking refers to. *)
Theorem bookings_are_append_only (d : db) :
  (∀ es : list event, bookings d `prefix_of` bookings (run d es))
  ∧ (∀ e : event,
       bookings (step d e) = bookings d
       ∨ ∃ b, bookings (step d e) = bookings d ++ [b]
              ∧ ev_url e = url_book (b_slot b)
              ∧ method (ev_request e) = "POST").
Proof.
  assert (Hstep : ∀ d e,
            bookings (step d e) = bookings d
            ∨ ∃ b, bookings (step d e) = bookings d ++ [b]
                   ∧ ev_url e = url_book (b_slot b)
                   ∧ method (ev_request e) = "POST").
  { intros d0 e. destruct (effect_bookings _ _ _ (step_effect d0 e))
      as [Heq|(b & Heq & Hu & Hm & _)]; [by left|right; eauto]. }
  split; [|apply Hstep].
  intros es. revert d. induction es as [|e es IH]; intros d; [done|].
  simpl. etrans; [|apply IH].
  destruct (Hstep d e) as [->|(b & -> & _)]; [done|]. by apply prefix_app_r.
Qed.

Lemma effect_bookings_consistent d e d' :
  effect d e d' → bookings_consistent d →
  bookings_consistent d'.
Proof.
  intros Heff Hc b Hb.
  destruct (effect_bookings _ _ _ Heff) as [Heq|(b' & Heq & _)].
  - rewrite Heq in Hb. eapply effect_booked; eauto.
  - rewrite Heq in Hb. apply elem_of_app in Hb as [Hb|Hb].
    + eapply effect_booked; eauto.
    + apply list_elem_of_singleton in Hb. subst b'.
      eapply effect_new_booking; eauto.
Qed.

(** X2.  If every Booking refers to a stored Slot that is unavailable,
    this is so after any sequence of requests: no request leaves a
    Booking whose Slot is missing or can be booked again. *)
Theorem bookings_stay_consistent (d : db) (es : list event) :
  bookings_consistent d → bookings_consistent (run d es).
Proof.
  revert d. induction es as [|e es IH]; intros d Hd; [done|].
  simpl. apply IH. eapply effect_bookings_consistent; [apply step_effect|done].
Qed.

Lemma effect_one_booking_per_slot d e d' :
  effect d e d' → bookings_consistent d → one_booking_per_slot d →
  one_booking_per_slot d'.
Proof.
  unfold one_booking_per_slot. intros Heff Hc Hnd.
  destruct (effect_bookings _ _ _ Heff)
    as [->|(b & -> & _ & _ & s & Hs & Hid & Hav)]; [done|].
  rewrite fmap_app. apply NoDup_app. split; [done|]. split.
  - intros x Hx Hb. simpl in Hb. apply list_elem_of_singleton in Hb. subst x.
    apply list_elem_of_fmap in Hx as (b0 & Hid0 & Hb0).
    destruct (Hc b0 Hb0) as [_ Hall].
    rewrite (Hall s Hs) in Hav; [discriminate|congruence].
  - simpl. apply NoDup_singleton.
Qed.

(** X3.  Served one after the other, requests never book a Slot twice:
    if every Booking refers to an unavailable stored Slot and no two
    Bookings share a Slot, then after any sequence of requests no two
    Bookings share a Slot. *)
Theorem no_double_booking (d : db) (es : list event) :
  bookings_consistent d → one_booking_per_slot d →
  one_booking_per_slot (run d es).
Proof.
  revert d. induction es as [|e es IH]; intros d Hc Hd; [done|].
  simpl. apply IH.
  - eapply effect_bookings_consistent; [apply step_effect|done].
  - eapply effect_one_booking_per_slot; [apply step_effect|done..].
Qed.

Example no_double_booking_sample :
  bookings (run Sample.db0 [Sample.book7; Sample.book7; Sample.add_slot; Sample.book7])
  = [Sample.alice].
Proof. vm_compute. reflexivity. Qed.

(** ** The session *)

Lemma dispatch_session (u : url) (today : date) (req : request) (d : db) :
  (dispatch u today req d).1.2 = session req
  ∨ (u = url_login ∧ method req = "POST"
     ∧ POST req !! "password" = Some OWNER_PASSWORD
     ∧ (dispatch u today req d).1.2 = <["is_owner" := true]> (session req)).
Proof.
  destruct u as [| | |slot_id]; simpl.
  - by left.
  - unfold admin_login.
    destruct (decide (method req = "POST")); [|by left].
    destruct (decide (POST req !! "password" = Some OWNER_PASSWORD));
      [by right|by left].
  - left. unfold admin_panel.
    destruct (Py.truthy (session req !! "is_owner")); simpl; [|done].
    destruct (decide (method req = "POST")); [|done].
    destruct (POST_getitem req "date"); [|done].
    destruct (POST_getitem req "time"); [|done].
    by destruct (Slot_objects_create _ _ _ _) as [[]].
  - left. unfold book_slot.
    destruct (get_object_or_404 slot_id true d); [|done].
    destruct (decide (method req = "POST")); [|done].
    destruct (POST_getitem req "name"); [|done].
    by destruct (POST_getitem req "email").
Qed.

(** X4.  Within one browser session the owner flag is set by nothing but
    a POST of the owner password to the login page, and nothing ever
    clears it (there is no logout): after a request the flag is set
    exactly when it was set before or the request was that POST; every
    other key of the session keeps its value; and a session that has the
    flag has it after any further requests. *)
Theorem owner_flag_is_only_set_by_login (st : gmap string bool * db) :
  (∀ h : hit,
      Py.truthy ((serve st h).1 !! "is_owner") = true
      ↔ Py.truthy (st.1 !! "is_owner") = true
        ∨ (h_url h = url_login ∧ h_method h = "POST"
           ∧ h_POST h !! "password" = Some OWNER_PASSWORD))
  ∧ (∀ (h : hit) (k : string),
      k ≠ "is_owner" → (serve st h).1 !! k = st.1 !! k)
  ∧ (∀ hs : list hit,
      Py.truthy (st.1 !! "is_owner") = true →
      Py.truthy ((serve_all st hs).1 !! "is_owner") = true).
Proof.
  assert (Hone : ∀ (st : gmap string bool * db) h,
            Py.truthy ((serve st h).1 !! "is_owner") = true
            ↔ Py.truthy (st.1 !! "is_owner") = true
              ∨ (h_url h = url_login ∧ h_method h = "POST"
                 ∧ h_POST h !! "password" = Some OWNER_PASSWORD)).
  { intros st0 h. unfold serve. cbn [fst].
    pose proof (dispatch_session (h_url h) (h_today h)
                  (mkRequest (h_method h) (h_POST h) st0.1) st0.2) as Hd.
    cbn [session method POST] in Hd. split.
    - intros Ho. destruct Hd as [Heq|(Hu & Hm & Hp & _)]; [left|by right].
      by rewrite <- Heq.
    - intros [Ho|(Hu & Hm & Hp)].
      + destruct Hd as [->|(_ & _ & _ & ->)]; [done|].
        by rewrite lookup_insert_eq.
      + rewrite Hu. cbn [dispatch]. unfold admin_login.
        cbn [method POST session]. rewrite !decide_True by done.
        cbn [fst snd]. by rewrite lookup_insert_eq. }
  split; [apply Hone|]. split.
  - intros h k Hk. unfold serve. cbn [fst].
    destruct (dispatch_session (h_url h) (h_today h)
                (mkRequest (h_method h) (h_POST h) st.1) st.2)
      as [->|(_ & _ & _ & ->)]; [done|].
    cbn [session]. by rewrite lookup_insert_ne.
  - intros hs. revert st. induction hs as [|h hs IH]; intros st Ho; [done|].
    simpl. apply IH. apply Hone. by left.
Qed.

(** X5.  A request from a session without the owner flag never creates
    or removes a Slot, whatever the address and the method: the keys of
    the Slot table are the same, in the same order, after the request. *)
Theorem only_owner_changes_slot_keys (d : db) (e : event) :
  Py.truthy (session (ev_request e) !! "is_owner") = false →
  s_id <$> slots (step d e) = s_id <$> slots d.
Proof.
  intros Ho.
  destruct (step_effect d e) as [|s _ _ Hs _ _|slot name email _ _ _ _ _]; simpl.
  - done.
  - congruence.
  - rewrite <- list_fmap_compose. apply list_fmap_ext. intros i r _. simpl.
    destruct (Z.eqb_spec (s_id r) (s_id slot)); simpl; congruence.
Qed.

(** ** Form fields that are missing or wrong *)

(** X6.  A POST to the booking page of a Slot that can be booked, sent
    without the field name, or with it but without the field email,
    escapes with MultiValueDictKeyError for the first missing field and
    writes nothing: no Booking is stored and the Slot stays available.
    When the Slot cannot be booked the answer is Http404 whether or not
    the fields are there. *)
Theorem book_slot_missing_field (slot_id : Z) (req : request) (d : db) :
  method req = "POST" →
  (POST req !! "name" = None ∨ POST req !! "email" = None) →
  (∀ slot, get_object_or_404 slot_id true d = Ok slot →
     book_slot slot_id req d
     = (Raise (MultiValueDictKeyError
                 (match POST req !! "name" with
                  | Some _ => "email"
                  | None => "name"
                  end)),
        session req, d))
  ∧ (get_object_or_404 slot_id true d = Raise Http404 →
     book_slot slot_id req d = (Raise Http404, session req, d)).
Proof.
  intros Hm Hmiss. unfold book_slot, POST_getitem. split.
  - intros slot ->. rewrite decide_True by done.
    destruct (POST req !! "name"); [|done].
    destruct Hmiss as [?| ->]; done.
  - by intros ->.
Qed.

Lemma DateField_to_python_Raise (value : string) (e : exn) :
  DateField_to_python value = Raise e → e = ValidationError.
Proof.
  unfold DateField_to_python.
  assert (Hother : match other_date_text value with
                   | Some dt => Ok dt
                   | None => Raise ValidationError
                   end = Raise e → e = ValidationError).
  { destruct (other_date_text value); intros Heq; by simplify_eq. }
  destruct (Str.split_on "-" value) as [|ys [|ms [|ds [|]]]]; try exact Hother.
  destruct (negb _); [exact Hother|].
  destruct (Str.int_of_digits ys), (Str.int_of_digits ms),
    (Str.int_of_digits ds); try exact Hother.
  destruct (date_new _ _ _); intros Heq; by simplify_eq.
Qed.

(** X7.  A POST of the owner to the admin panel that does not carry a
    usable date and a time creates nothing.  Without the field date the
    view escapes with MultiValueDictKeyError for date; with date but
    without time, with MultiValueDictKeyError for time (the date is not
    looked at); with both fields and a date text that the DateField of
    the installation does not read as a date, with ValidationError.  In
    each case the Slot table is as it was. *)
Theorem admin_panel_rejects_bad_form (req : request) (d : db) :
  Py.truthy (session req !! "is_owner") = true →
  method req = "POST" →
  (POST req !! "date" = None →
   admin_panel req d = (Raise (MultiValueDictKeyError "date"), session req, d))
  ∧ (is_Some (POST req !! "date") → POST req !! "time" = None →
     admin_panel req d = (Raise (MultiValueDictKeyError "time"), session req, d))
  ∧ (∀ date_text time,
       POST req !! "date" = Some date_text → POST req !! "time" = Some time →
       (∀ dt, DateField_to_python date_text ≠ Ok dt) →
       admin_panel req d = (Raise ValidationError, session req, d)).
Proof.
  intros Ho Hm. unfold admin_panel, POST_getitem. rewrite Ho. simpl.
  rewrite decide_True by done. split; [|split].
  - by intros ->.
  - intros [v ->] ->. done.
  - intros date_text time -> -> Hbad. unfold Slot_objects_create.
    destruct (DateField_to_python date_text) as [dt|e] eqn:He.
    + by destruct (Hbad dt).
    + by rewrite (DateField_to_python_Raise _ _ He).
Qed.

(** ** Booking a Slot that is available *)

Lemma filter_pk_singleton (l : list Slot) (s : Slot) :
  NoDup (s_id <$> l) → s ∈ l →
  filter (fun r => s_id r = s_id s ∧ s_available r = s_available s) l = [s].
Proof.
  induction l as [|a l IH]; intros Hnd Hin; [by apply elem_of_nil in Hin|].
  rewrite fmap_cons in Hnd. apply NoDup_cons in Hnd as [Ha Hnd].
  rewrite filter_cons. apply elem_of_cons in Hin as [<-|Hin].
  - rewrite decide_True by done. f_equal.
    destruct (filter _ l) as [|r l'] eqn:Hf; [done|].
    assert (Hr : r ∈ filter
              (fun r => s_id r = s_id s ∧ s_available r = s_available s) l)
      by (rewrite Hf; by left).
    apply list_elem_of_filter in Hr as [[Hid _] Hr].
    destruct Ha. rewrite <- Hid. apply list_elem_of_fmap. eauto.
  - rewrite decide_False; [by apply IH|].
    intros [Hid _]. apply Ha. rewrite Hid. apply list_elem_of_fmap. eauto.
Qed.

Lemma get_object_or_404_found (d : db) (s : Slot) :
  pk_unique d → s ∈ slots d →
  get_object_or_404 (s_id s) (s_available s) d = Ok s.
Proof.
  intros Hpk Hin. unfold get_object_or_404.
  by rewrite filter_pk_singleton.
Qed.

(** X8.  A stored Slot that is available can always be booked (the key
    of the Slot table identifying rows).  A request to its booking page
    that is no POST gets the form for exactly that Slot and changes
    nothing.  A POST that carries name and email, whatever else it
    carries, is answered with the redirect to the calendar; it stores
    one Booking with that name and email for the Slot, under the next
    key, and sets available to false in the row of the Slot and in no
    other row. *)
Theorem available_slot_can_be_booked (d : db) (s : Slot) :
  pk_unique d → s ∈ slots d → s_available s = true →
  (∀ req : request,
      method req ≠ "POST" →
      book_slot (s_id s) req d
      = (Ok (render "book.html" (book_context s)), session req, d))
  ∧ (∀ (req : request) (name email : string),
      method req = "POST" →
      POST req !! "name" = Some name → POST req !! "email" = Some email →
      book_slot (s_id s) req d
      = (Ok (redirect "/"), session req,
         mkDb ((fun r => if s_id r =? s_id s then with_available false r else r)
                 <$> slots d)
              (bookings d
               ++ [mkBooking (next_id (b_id <$> bookings d)) name email (s_id s)]))).
Proof.
  intros Hpk Hin Hav.
  pose proof (get_object_or_404_found d s Hpk Hin) as Hg. rewrite Hav in Hg.
  unfold book_slot, POST_getitem. rewrite Hg. split.
  - intros req Hm. by rewrite decide_False.
  - intros req name email Hm -> ->. rewrite decide_True by done.
    cbn [length book_slot_writes]. rewrite book_slot_commit by done.
    do 2 f_equal. apply list_fmap_ext. intros i r Hr. simpl.
    destruct (Z.eqb_spec (s_id r) (s_id s)) as [Hid|]; [|done].
    assert (r = s) as ->; [|done].
    eapply pk_unique_eq; eauto. eapply list_elem_of_lookup_2; eauto.
Qed.

(** ** The slot map: Slots that share a cell, Slots that are not shown *)

Lemma foldl_slot_map_put_other (l : list Slot) (m : gmap (date * string) bool)
    (k : date * string) :
  (∀ r, r ∈ l → (s_date r, s_time r) ≠ k) →
  foldl slot_map_put m l !! k = m !! k.
Proof.
  revert m. induction l as [|a l IH]; intros m Hl; [done|].
  simpl. rewrite IH by (intros r Hr; apply Hl; by right).
  unfold slot_map_put. apply lookup_insert_ne. apply Hl. by left.
Qed.

Lemma foldl_slot_map_put_None (l : list Slot) (m : gmap (date * string) bool)
    (k : date * string) :
  foldl slot_map_put m l !! k = None
  ↔ m !! k = None ∧ ∀ r, r ∈ l → (s_date r, s_time r) ≠ k.
Proof.
  revert m. induction l as [|a l IH]; intros m; simpl.
  - split; [intros H; split; [done|]|by intros [H _]].
    intros r Hr. by apply elem_of_nil in Hr.
  - rewrite IH. unfold slot_map_put. split.
    + intros [Hm Hl].
      destruct (decide ((s_date a, s_time a) = k)) as [Hk|Hk].
      * by rewrite Hk, lookup_insert_eq in Hm.
      * rewrite lookup_insert_ne in Hm by done. split; [done|].
        intros r Hr. apply elem_of_cons in Hr as [->|Hr]; auto.
    + intros [Hm Hl]. split.
      * rewrite lookup_insert_ne; [done|]. apply Hl. by left.
      * intros r Hr. apply Hl. by right.
Qed.

(** X9.  In the slot map of the index view a cell (date, time) has no
    entry exactly when none of the listed Slots has that date and time;
    and when several listed Slots share a cell, the entry is the
    availability of the one that comes last in the list: the others are
    hidden by it. *)
Theorem slot_map_last_slot_wins :
  (∀ (l : list Slot) (k : date * string),
      build_slot_map l !! k = None
      ↔ ∀ r, r ∈ l → (s_date r, s_time r) ≠ k)
  ∧ (∀ (l1 l2 : list Slot) (s : Slot),
      (∀ r, r ∈ l2 → (s_date r, s_time r) ≠ (s_date s, s_time s)) →
      build_slot_map (l1 ++ s :: l2) !! (s_date s, s_time s)
      = Some (s_available s)).
Proof.
  split.
  - intros l k. unfold build_slot_map. rewrite foldl_slot_map_put_None.
    rewrite lookup_empty. tauto.
  - intros l1 l2 s Hl2. unfold build_slot_map. rewrite foldl_app. simpl.
    rewrite foldl_slot_map_put_other by done.
    apply lookup_insert_eq.
Qed.

(** ** The days of the calendar *)

Lemma _monthlen_bounds (y m : Z) :
  1 ≤ m ≤ 12 →
  Calendar._monthlen y m = _days_in_month y m ∧ 28 ≤ Calendar._monthlen y m ≤ 31.
Proof.
  intros Hm.
  assert (m = 1 ∨ m = 2 ∨ m = 3 ∨ m = 4 ∨ m = 5 ∨ m = 6 ∨ m = 7 ∨ m = 8
          ∨ m = 9 ∨ m = 10 ∨ m = 11 ∨ m = 12) as Hc by lia.
  unfold Calendar._monthlen, _days_in_month, Calendar.isleap, _is_leap,
    Calendar.February.
  repeat destruct Hc as [->|Hc]; try subst m; simpl;
    destruct ((y mod 4 =? 0) && (negb (y mod 100 =? 0) || (y mod 400 =? 0)));
    simpl; lia.
Qed.

Lemma rmapM_Ok_fmap {A B} (f : A -> result B) (g : A -> B) (l : list A)
    (k : list B) :
  (∀ a b, f a = Ok b → b = g a) → rmapM f l = Ok k → k = g <$> l.
Proof.
  intros Hf Hk. apply rmapM_Ok_Forall2 in Hk.
  induction Hk as [|a b l k Hab _ IH]; [done|].
  simpl. by rewrite (Hf a b Hab), IH.
Qed.

Lemma monthrange_Ok (y m day1 ndays : Z) :
  Calendar.monthrange y m = Ok (day1, ndays) →
  1 ≤ m ≤ 12 ∧ ndays = Calendar._monthlen y m.
Proof.
  unfold Calendar.monthrange.
  destruct (Z.leb_spec 1 m), (Z.leb_spec m 12); simpl; try discriminate.
  destruct (Calendar.weekday y m 1); cbn; intros Heq; simplify_eq. lia.
Qed.

(* the dates of a month grid: whole weeks; the days of the month, each
   once and in order, between days of the neighbouring months *)
Lemma itermonthdates_Ok (y m : Z) (days : list date) :
  Calendar.itermonthdates y m = Ok days →
  ∃ pre post : list date,
    days = pre ++ ((fun d => Date y m d) <$> seqZ 1 (Calendar._monthlen y m))
               ++ post
    ∧ Forall (fun dt => month dt ≠ m) pre
    ∧ Forall (fun dt => month dt ≠ m) post
    ∧ ∃ weeks : nat, length days = (7 * weeks)%nat.
Proof.
  unfold Calendar.itermonthdates, Calendar.itermonthdays3. intros H.
  destruct (Calendar.monthrange y m) as [[day1 ndays]|e] eqn:Hr; [|discriminate].
  apply monthrange_Ok in Hr as [Hm ->].
  pose proof (_monthlen_bounds y m Hm) as [_ Hn].
  cbn in H.
  pose proof (_prevmonth_month y m) as Hp.
  pose proof (_nextmonth_month y m) as Hx.
  destruct (Calendar._prevmonth y m) as [py pm].
  destruct (Calendar._nextmonth y m) as [ny nm].
  simpl in Hp, Hx. cbn in H.
  apply (rmapM_Ok_fmap _ (fun t : Z * Z * Z => Date t.1.1 t.1.2 t.2)) in H;
    [|intros [[y' m'] d'] b Hb; by apply date_new_Ok in Hb].
  rewrite !fmap_app, <- !list_fmap_compose in H.
  unfold Calendar.range in H.
  replace (Calendar._monthlen y m + 1 - 1) with (Calendar._monthlen y m) in H
    by lia.
  eexists _, _. split; [exact H|]. split; [|split].
  - apply Forall_fmap, Forall_forall. by intros d' _.
  - apply Forall_fmap, Forall_forall. by intros d' _.
  - subst days. rewrite !length_app, !length_fmap, !length_seqZ.
    unfold Calendar.firstweekday.
    set (n := Calendar._monthlen y m) in *.
    exists (Z.to_nat ((day1 mod 7 + n + (0 - day1 - n) mod 7) / 7)).
    clearbody n. clear -Hn.
    pose proof (Z.mod_pos_bound day1 7).
    pose proof (Z.mod_pos_bound (0 - day1 - n) 7).
    replace (day1 - 0) with day1 by lia.
    assert ((day1 mod 7 + n + (0 - day1 - n) mod 7) mod 7 = 0) as Hz.
    { rewrite Z.add_mod, (Z.add_mod (day1 mod 7)), !Z.mod_mod by lia.
      rewrite <- (Z.add_mod day1), <- Z.add_mod by lia.
      replace (day1 + n + (0 - day1 - n)) with 0 by lia. done. }
    apply Z.div_exact in Hz; [|lia]. lia.
Qed.

Lemma filter_Forall_not {A} (P : A → Prop) `{!∀ a, Decision (P a)} (l : list A) :
  Forall (fun a => ¬ P a) l → filter P l = [].
Proof.
  induction 1 as [|a l Ha _ IH]; [done|].
  by rewrite filter_cons, decide_False.
Qed.

Lemma filter_Forall_all {A} (P : A → Prop) `{!∀ a, Decision (P a)} (l : list A) :
  Forall P l → filter P l = l.
Proof.
  induction 1 as [|a l Ha _ IH]; [done|].
  by rewrite filter_cons, decide_True, IH.
Qed.

(** X11.  Whenever the body of the index view gets as far as the call
    of render, the context it has built holds the month and the year of
    the day and a list of days that fills whole weeks of seven; the days
    of that list that lie in the displayed month are the days 1, 2, ...
    up to the length of the month of the displayed year, each once and
    in this order (the others are days of the neighbouring months). *)
Theorem calendar_context_lists_each_day_once
    (today : date) (d : db) (days : list date)
    (slot_map : gmap (date * string) bool) (m y : Z) :
  index_context today d = Ok (calendar_context days slot_map m y) →
  m = month today ∧ y = year today
  ∧ (∃ weeks : nat, length days = (7 * weeks)%nat)
  ∧ filter (fun dt => month dt = m) days
    = (fun n => Date y m n) <$> seqZ 1 (Calendar._monthlen y m).
Proof.
  unfold index_context.
  destruct (Calendar.itermonthdates (year today) (month today)) as [days'|e] eqn:Hd;
    [|intros Heq; discriminate Heq].
  cbn. intros Heq. simplify_eq.
  destruct (itermonthdates_Ok _ _ _ Hd) as (pre & post & -> & Hpre & Hpost & Hw).
  split; [done|]. split; [done|]. split; [done|].
  rewrite !filter_app.
  rewrite (filter_Forall_not _ pre), (filter_Forall_not _ post) by done.
  rewrite filter_Forall_all; [by rewrite app_nil_r|].
  apply Forall_fmap, Forall_forall. by intros n _.
Qed.

Lemma date_new_valid (y m d : Z) :
  1 ≤ y ≤ 9999 → 1 ≤ m ≤ 12 → 1 ≤ d ≤ _days_in_month y m →
  date_new y m d = Ok (Date y m d).
Proof.
  intros Hy Hm Hd. unfold date_new, MINYEAR, MAXYEAR.
  destruct (Z.leb_spec 1 y), (Z.leb_spec y 9999); try lia. simpl.
  destruct (Z.leb_spec 1 m), (Z.leb_spec m 12); try lia. simpl.
  destruct (Z.leb_spec 1 d), (Z.leb_spec d (_days_in_month y m)); try lia.
  done.
Qed.

Lemma rmapM_Ok_intro {A B} (f : A -> result B) (g : A -> B) (l : list A) :
  (∀ a, a ∈ l → f a = Ok (g a)) → rmapM f l = Ok (g <$> l).
Proof.
  induction l as [|a l IH]; intros Hl; [done|].
  simpl. rewrite (Hl a) by (by left). cbn.
  rewrite IH by (intros b Hb; apply Hl; by right). done.
Qed.

(* the grid exists for every month of the years 2 to 9998 *)
Lemma itermonthdates_total (y m : Z) :
  2 ≤ y ≤ 9998 → 1 ≤ m ≤ 12 → ∃ days, Calendar.itermonthdates y m = Ok days.
Proof.
  intros Hy Hm. unfold Calendar.itermonthdates, Calendar.itermonthdays3,
    Calendar.monthrange, Calendar.weekday, MINYEAR, MAXYEAR.
  destruct (Z.leb_spec 1 m), (Z.leb_spec m 12); try lia. simpl.
  destruct (Z.leb_spec 1 y), (Z.leb_spec y 9999); try lia. simpl.
  destruct (_monthlen_bounds y m Hm) as [Hlen Hn].
  rewrite date_new_valid by lia. cbn.
  set (day1 := Datetime.weekday (Date y m 1)).
  assert (Hpm : 1 ≤ (Calendar._prevmonth y m).1 ≤ 9999
                ∧ 1 ≤ (Calendar._prevmonth y m).2 ≤ 12).
  { unfold Calendar._prevmonth. destruct (Z.eqb_spec m 1); simpl; lia. }
  assert (Hnm : 1 ≤ (Calendar._nextmonth y m).1 ≤ 9999
                ∧ 1 ≤ (Calendar._nextmonth y m).2 ≤ 12).
  { unfold Calendar._nextmonth. destruct (Z.eqb_spec m 12); simpl; lia. }
  destruct (Calendar._prevmonth y m) as [py pm].
  destruct (Calendar._nextmonth y m) as [ny nm]. simpl in Hpm, Hnm. cbn.
  destruct (_monthlen_bounds py pm (proj2 Hpm)) as [Hplen Hpn].
  destruct (_monthlen_bounds ny nm (proj2 Hnm)) as [Hnlen Hnn].
  eexists.
  apply (rmapM_Ok_intro _ (fun t : Z * Z * Z => Date t.1.1 t.1.2 t.2)).
  intros [[y' m'] d'] Hin. unfold Calendar.range, Calendar.firstweekday in Hin.
  pose proof (Z.mod_pos_bound (day1 - 0) 7).
  pose proof (Z.mod_pos_bound (0 - day1 - Calendar._monthlen y m) 7).
  rewrite !elem_of_app, !list_elem_of_fmap in Hin.
  destruct Hin as [(x & Hx & Hs)|[(x & Hx & Hs)|(x & Hx & Hs)]];
    simplify_eq; apply elem_of_seqZ in Hs; simpl;
    apply date_new_valid; lia.
Qed.

(** X12.  On every day of the years 2 to 9998 the calendar library
    gives the grid of the month, so the index view gets as far as render
    and fails there: whatever the request and the Slots that are stored,
    GET / ends in TemplateSyntaxError, and it leaves the session and the
    database as they are. *)
Theorem calendar_is_never_rendered (today : date) (req : request) (d : db) :
  date_valid today → 2 ≤ year today ≤ 9998 →
  (∃ c, index_context today d = Ok c)
  ∧ index today req d = (Raise TemplateSyntaxError, session req, d).
Proof.
  intros Hv Hy. destruct (date_valid_bounds today Hv) as (_ & Hm & _).
  destruct (itermonthdates_total (year today) (month today) Hy Hm) as [days Hd].
  unfold index, index_context. rewrite Hd. cbn. eauto.
Qed.

(** * The build script *)

(** ** What an operation reads and what it writes *)

Section locality.

Context (K : list string → Prop).
Implicit Types (m : gmap (list string) OS.node) (parts : list string).

Lemma agree_insert m1 m2 k v :
  agree K m1 m2 → agree K (<[k:=v]> m1) (<[k:=v]> m2).
Proof.
  intros H k' Hk'. destruct (decide (k = k')) as [->|Hne].
  - by rewrite !lookup_insert_eq.
  - rewrite !lookup_insert_ne by done. by apply H.
Qed.

Lemma removelast_prefix parts : removelast parts `prefix_of` parts.
Proof.
  induction parts as [|a [|b l] IH]; [done|by apply prefix_nil|].
  change (removelast (a :: b :: l)) with (a :: removelast (b :: l)).
  by apply prefix_cons.
Qed.

Lemma covers_self parts : covers K parts → parts ≠ [] → K parts.
Proof. intros H Hne. by apply H. Qed.

Lemma covers_prefix parts parts' :
  covers K parts → parts' `prefix_of` parts → covers K parts'.
Proof. intros H Hp k Hk Hne. apply H; [by etrans|done]. Qed.

Lemma parent_check_local m1 m2 parts :
  covers K parts → agree K m1 m2 →
  OS.parent_check m1 parts = OS.parent_check m2 parts.
Proof.
  intros Hc Ha. unfold OS.parent_check.
  destruct (removelast parts) as [|a l] eqn:Hr; [done|].
  rewrite (Ha (a :: l)); [done|].
  apply Hc; [|done]. rewrite <- Hr. apply removelast_prefix.
Qed.

Lemma mkdir_local m1 m2 parts :
  covers K parts → agree K m1 m2 →
  (OS.mkdir parts m1).1 = (OS.mkdir parts m2).1
  ∧ agree K (OS.mkdir parts m1).2 (OS.mkdir parts m2).2.
Proof.
  intros Hc Ha. unfold OS.mkdir. destruct parts as [|a l]; [done|].
  rewrite (parent_check_local m1 m2) by done.
  destruct (OS.parent_check m2 (a :: l)); [done|].
  rewrite (Ha (a :: l)) by (by apply covers_self).
  destruct (m2 !! (a :: l)); [done|]. split; [done|]. by apply agree_insert.
Qed.

Lemma mkdir_frame m parts k :
  covers K parts → ¬ K k → (OS.mkdir parts m).2 !! k = m !! k.
Proof.
  intros Hc Hk. unfold OS.mkdir. destruct parts as [|a l]; [done|].
  destruct (OS.parent_check m (a :: l)); [done|].
  destruct (m !! (a :: l)); [done|]. simpl.
  apply lookup_insert_ne. intros <-. apply Hk. by apply covers_self.
Qed.

Lemma makedirs_rev_local rparts m1 m2 :
  covers K (rev rparts) → agree K m1 m2 →
  (OS.makedirs_rev rparts m1).1 = (OS.makedirs_rev rparts m2).1
  ∧ agree K (OS.makedirs_rev rparts m1).2 (OS.makedirs_rev rparts m2).2.
Proof.
  revert m1 m2. induction rparts as [|t rhead IH]; intros m1 m2 Hc Ha.
  - done.
  - assert (Hh : covers K (rev rhead)).
    { eapply covers_prefix; [done|]. simpl. by apply prefix_app_r. }
    cbn [OS.makedirs_rev].
    set (made1 := match rhead with
                  | [] => (None, m1)
                  | _ :: _ =>
                      if negb (OS.exists_ m1 (rev rhead))
                      then match OS.makedirs_rev rhead m1 with
                           | (Some OS.FileExistsError, m') => (None, m')
                           | r => r
                           end
                      else (None, m1)
                  end).
    set (made2 := match rhead with
                  | [] => (None, m2)
                  | _ :: _ =>
                      if negb (OS.exists_ m2 (rev rhead))
                      then match OS.makedirs_rev rhead m2 with
                           | (Some OS.FileExistsError, m') => (None, m')
                           | r => r
                           end
                      else (None, m2)
                  end).
    assert (Hmade : made1.1 = made2.1 ∧ agree K made1.2 made2.2).
    { subst made1 made2. destruct rhead as [|h rhead']; [done|].
      unfold OS.exists_. rewrite (Ha (rev (h :: rhead'))).
      - destruct (m2 !! rev (h :: rhead')); cbn [negb]; [done|].
        destruct (IH m1 m2 Hh Ha) as [He Hm].
        destruct (OS.makedirs_rev (h :: rhead') m1) as [e1 m1'],
          (OS.makedirs_rev (h :: rhead') m2) as [e2 m2'].
        cbn [fst snd] in He, Hm. subst e2. by destruct e1 as [[]|].
      - apply covers_self; [done|]. simpl. by destruct (rev rhead'). }
    destruct made1 as [e1 m1'], made2 as [e2 m2']. simpl in Hmade.
    destruct Hmade as [-> Hm]. destruct e2; [done|].
    destruct (mkdir_local m1' m2' (rev (t :: rhead)) Hc Hm) as [He Hm'].
    destruct (OS.mkdir (rev (t :: rhead)) m1') as [e1 m1''],
      (OS.mkdir (rev (t :: rhead)) m2') as [e2 m2''].
    simpl in He, Hm'. subst e2. destruct e1; [|done].
    unfold OS.isdir. rewrite (Hm' (rev (t :: rhead))).
    + destruct (rev (t :: rhead)) as [|a l]; [done|].
      by destruct (m2'' !! (a :: l)) as [[]|].
    + apply covers_self; [done|]. simpl. by destruct (rev rhead).
Qed.

End locality.

Section locality_of_the_loop.

Context (K : list string → Prop).
Implicit Types (m : gmap (list string) OS.node) (parts : list string).

Lemma makedirs_rev_frame rparts m k :
  covers K (rev rparts) → ¬ K k → (OS.makedirs_rev rparts m).2 !! k = m !! k.
Proof.
  revert m. induction rparts as [|t rhead IH]; intros m Hc Hk; [done|].
  assert (Hh : covers K (rev rhead)).
  { eapply covers_prefix; [done|]. simpl. by apply prefix_app_r. }
  cbn [OS.makedirs_rev].
  set (made := match rhead with
               | [] => (None, m)
               | _ :: _ =>
                   if negb (OS.exists_ m (rev rhead))
                   then match OS.makedirs_rev rhead m with
                        | (Some OS.FileExistsError, m') => (None, m')
                        | r => r
                        end
                   else (None, m)
               end).
  assert (Hmade : made.2 !! k = m !! k).
  { subst made. destruct rhead as [|h rhead']; [done|].
    destruct (negb _); [|done]. specialize (IH m Hh Hk).
    destruct (OS.makedirs_rev (h :: rhead') m) as [e m'].
    cbn [snd] in IH. by destruct e as [[]|]. }
  destruct made as [e m']. cbn [snd] in Hmade. destruct e; [done|].
  pose proof (mkdir_frame K m' (rev (t :: rhead)) k Hc Hk) as Hmk.
  destruct (OS.mkdir (rev (t :: rhead)) m') as [e m'']. cbn [snd] in Hmk.
  destruct e; [destruct (OS.isdir _ _)|]; cbn [snd]; by rewrite Hmk.
Qed.

Lemma open_w_local m1 m2 parts c :
  covers K parts → agree K m1 m2 →
  (OS.open_w parts c m1).1 = (OS.open_w parts c m2).1
  ∧ agree K (OS.open_w parts c m1).2 (OS.open_w parts c m2).2.
Proof.
  intros Hc Ha. unfold OS.open_w. destruct parts as [|a l]; [done|].
  rewrite (parent_check_local K m1 m2) by done.
  destruct (OS.parent_check m2 (a :: l)); [done|].
  rewrite (Ha (a :: l)) by (by apply covers_self).
  destruct (m2 !! (a :: l)) as [[]|]; [done|..]; split; try done;
    by apply agree_insert.
Qed.

Lemma open_w_frame m parts c k :
  covers K parts → ¬ K k → (OS.open_w parts c m).2 !! k = m !! k.
Proof.
  intros Hc Hk. unfold OS.open_w. destruct parts as [|a l]; [done|].
  destruct (OS.parent_check m (a :: l)); [done|].
  destruct (m !! (a :: l)) as [[]|]; [done|..]; simpl;
    apply lookup_insert_ne; intros <-; apply Hk; by apply covers_self.
Qed.

Lemma create_project_local (items : list (string * string)) m1 m2 :
  Forall (fun i => covers K (OS.path_parts (OS.dirname i.1))
                   ∧ covers K (OS.path_parts i.1)) items →
  agree K m1 m2 →
  (Build.create_project items m1).1 = (Build.create_project items m2).1
  ∧ agree K (Build.create_project items m1).2 (Build.create_project items m2).2.
Proof.
  intros Hi. revert m1 m2.
  induction Hi as [|[p c] items [Hd Hp] _ IH]; intros m1 m2 Ha; [done|].
  cbn [Build.create_project fst] in *. unfold OS.makedirs.
  destruct (makedirs_rev_local K (rev (OS.path_parts (OS.dirname p))) m1 m2)
    as [He Hm]; [by rewrite rev_involutive|done|].
  destruct (OS.makedirs_rev _ m1) as [e1 m1'], (OS.makedirs_rev _ m2) as [e2 m2'].
  cbn [fst snd] in He, Hm. subst e2. destruct e1; [done|].
  destruct (open_w_local m1' m2' (OS.path_parts p) c Hp Hm) as [He Hm'].
  destruct (OS.open_w _ c m1') as [e1 m1''], (OS.open_w _ c m2') as [e2 m2''].
  cbn [fst snd] in He, Hm'. subst e2. destruct e1; [done|]. by apply IH.
Qed.

Lemma create_project_frame (items : list (string * string)) m k :
  Forall (fun i => covers K (OS.path_parts (OS.dirname i.1))
                   ∧ covers K (OS.path_parts i.1)) items →
  ¬ K k → (Build.create_project items m).2 !! k = m !! k.
Proof.
  intros Hi Hk. revert m.
  induction Hi as [|[p c] items [Hd Hp] _ IH]; intros m; [done|].
  cbn [Build.create_project fst] in *. unfold OS.makedirs.
  pose proof (makedirs_rev_frame (rev (OS.path_parts (OS.dirname p))) m k) as Hmk.
  rewrite rev_involutive in Hmk. specialize (Hmk Hd Hk).
  destruct (OS.makedirs_rev _ m) as [e m']. cbn [snd] in Hmk.
  destruct e; [done|].
  pose proof (open_w_frame m' (OS.path_parts p) c k Hp Hk) as Ho.
  destruct (OS.open_w _ c m') as [e m'']. cbn [snd] in Ho.
  destruct e; cbn [snd]; [by rewrite Ho|]. by rewrite IH, Ho.
Qed.

End locality_of_the_loop.

(** ** The paths of the project *)

Lemma prefix_take {A} (k l : list A) : k `prefix_of` l → k = take (length k) l.
Proof. intros [k' ->]. by rewrite take_app_length. Qed.

Lemma covers_project_keys (parts : list string) :
  Forall (fun n => take n parts ∈ Build.project_dirs
                                  ++ (OS.path_parts <$> Build.file_paths))
    (seq 1 (length parts)) →
  covers project_keys parts.
Proof.
  intros Hall k Hk Hne. pose proof (prefix_length _ _ Hk) as Hlen.
  rewrite (prefix_take k parts Hk).
  rewrite Forall_forall in Hall.
  specialize (Hall (length k)).
  unfold project_keys. rewrite <- elem_of_app. apply Hall.
  apply elem_of_seq. destruct k; [done|]. simpl in *. lia.
Qed.

Lemma files_covered (content : string -> string) :
  Forall (fun i => covers project_keys (OS.path_parts (OS.dirname i.1))
                   ∧ covers project_keys (OS.path_parts i.1))
    (Build.files content).
Proof.
  unfold Build.files. apply Forall_fmap, Forall_forall. intros p Hp. simpl.
  revert p Hp. apply Forall_forall.
  assert (Hdec : Forall (fun p =>
             Forall (fun n => take n (OS.path_parts (OS.dirname p))
                              ∈ Build.project_dirs
                                ++ (OS.path_parts <$> Build.file_paths))
               (seq 1 (length (OS.path_parts (OS.dirname p))))
             ∧ Forall (fun n => take n (OS.path_parts p)
                                ∈ Build.project_dirs
                                  ++ (OS.path_parts <$> Build.file_paths))
                 (seq 1 (length (OS.path_parts p)))) Build.file_paths).
  { apply (bool_decide_unpack _). vm_compute. exact I. }
  eapply Forall_impl; [exact Hdec|].
  intros p [H1 H2]. split; by apply covers_project_keys.
Qed.

Lemma project_keys_BASE (k : list string) :
  project_keys k → ∃ k', k = Build.BASE :: k'.
Proof.
  assert (Hdec : Forall (fun k => head k = Some Build.BASE)
            (Build.project_dirs ++ (OS.path_parts <$> Build.file_paths))).
  { apply (bool_decide_unpack _). vm_compute. exact I. }
  unfold project_keys. rewrite <- elem_of_app. intros Hk.
  rewrite Forall_forall in Hdec. specialize (Hdec k Hk).
  destruct k as [|a k']; simplify_eq/=. eauto.
Qed.

(** ** Running create_project *)

(* the project in an empty directory: the five directories, the eighteen
   files with their texts, nothing else *)
Lemma project_tree_spec (content : string -> string) :
  (Build.create_project (Build.files content) ∅).1 = None
  ∧ (∀ p, p ∈ Build.file_paths →
       project_tree content !! OS.path_parts p = Some (OS.File (content p)))
  ∧ (∀ k, k ∈ Build.project_dirs → project_tree content !! k = Some OS.Dir)
  ∧ (∀ k, ¬ project_keys k → project_tree content !! k = None).
Proof.
  split; [by vm_compute|]. split; [|split].
  - apply Forall_forall. unfold Build.file_paths.
    rewrite Forall_fmap. repeat (apply Forall_cons; split; [by vm_compute|]).
    apply Forall_nil_2.
  - apply Forall_forall. unfold Build.project_dirs.
    repeat (apply Forall_cons; split; [by vm_compute|]). apply Forall_nil_2.
  - intros k Hk. unfold project_tree.
    rewrite (create_project_frame project_keys) by (done || apply files_covered).
    apply lookup_empty.
Qed.

Lemma create_project_as_union (content : string -> string)
    (m m0 : gmap (list string) OS.node) :
  agree project_keys m m0 →
  (Build.create_project (Build.files content) m0).1 = None →
  agree project_keys (Build.create_project (Build.files content) m0).2
    (project_tree content) →
  Build.create_project (Build.files content) m
  = (None, project_tree content ∪ m).
Proof.
  intros Ha He0 Hm0.
  destruct (create_project_local project_keys (Build.files content) m m0
              (files_covered content) Ha) as [He Hm].
  rewrite He0 in He.
  destruct (Build.create_project (Build.files content) m) as [e m'] eqn:Hr.
  cbn [fst snd] in He, Hm. subst e. f_equal.
  apply map_eq. intros k.
  destruct (project_tree_spec content) as (_ & Hf & Hd & Hnone).
  assert (Hdec : Decision (project_keys k)) by (unfold project_keys; apply _).
  destruct Hdec as [Hk|Hk].
  - assert (∃ v, project_tree content !! k = Some v) as [v Hv].
    { destruct (Hk) as [Hk'|Hk']; [eexists; by apply Hd|].
      apply list_elem_of_fmap in Hk' as (p & -> & Hp). eexists. by apply Hf. }
    rewrite (Hm k Hk), (Hm0 k Hk), Hv. symmetry. by apply lookup_union_Some_l.
  - rewrite lookup_union_r by (by apply Hnone).
    pose proof (create_project_frame project_keys (Build.files content) m k
                  (files_covered content) Hk) as Hfr.
    by rewrite Hr in Hfr.
Qed.

(* a second run, on the project as a first run left it *)
Lemma create_project_again (content old : string -> string) :
  (Build.create_project (Build.files content) (project_tree old)).1 = None
  ∧ agree project_keys
      (Build.create_project (Build.files content) (project_tree old)).2
      (project_tree content).
Proof.
  split; [by vm_compute|].
  intros k [Hk|Hk]; revert k Hk; apply Forall_forall.
  - unfold Build.project_dirs.
    repeat (apply Forall_cons; split; [by vm_compute|]). apply Forall_nil_2.
  - unfold Build.file_paths. rewrite !Forall_fmap.
    repeat (apply Forall_cons; split; [by vm_compute|]). apply Forall_nil_2.
Qed.


(** X14.  In a directory that has nothing named full_scheduler_project,
    create_project runs to its end without an exception and leaves what
    was there together with the project: the five directories and, under
    each of the eighteen paths, a file with the text the script holds
    for the path. *)
Theorem create_project_in_fresh_directory
    (content : string -> string) (m : gmap (list string) OS.node) :
  (∀ k, m !! (Build.BASE :: k) = None) →
  Build.create_project (Build.files content) m
  = (None, project_tree content ∪ m)
  ∧ (∀ p, p ∈ Build.file_paths →
       (project_tree content ∪ m) !! OS.path_parts p
       = Some (OS.File (content p)))
  ∧ (∀ k, k ∈ Build.project_dirs →
       (project_tree content ∪ m) !! k = Some OS.Dir).
Proof.
  intros Hm. destruct (project_tree_spec content) as (He & Hf & Hd & _).
  split; [|split].
  - apply (create_project_as_union content m ∅);
      [|exact He|intros k _; unfold project_tree; reflexivity].
    intros k [k' ->]%project_keys_BASE. by rewrite Hm, lookup_empty.
  - intros p Hp. apply lookup_union_Some_l. by apply Hf.
  - intros k Hk. apply lookup_union_Some_l. by apply Hd.
Qed.

(** X15.  Where the project already lies (its five directories, and a
    file, with whatever text, under each of the eighteen paths),
    create_project runs to its end without an exception and overwrites
    every one of the files with the text the script holds; all else in
    the directory stays.  When the files already have those texts the
    run changes nothing at all. *)
Theorem create_project_overwrites
    (content old : string -> string) (m : gmap (list string) OS.node) :
  (∀ k, k ∈ Build.project_dirs → m !! k = Some OS.Dir) →
  (∀ p, p ∈ Build.file_paths →
     m !! OS.path_parts p = Some (OS.File (old p))) →
  Build.create_project (Build.files content) m
  = (None, project_tree content ∪ m)
  ∧ (∀ p, p ∈ Build.file_paths →
       (project_tree content ∪ m) !! OS.path_parts p
       = Some (OS.File (content p)))
  ∧ ((∀ p, p ∈ Build.file_paths → old p = content p) →
     project_tree content ∪ m = m).
Proof.
  intros Hdirs Hfiles.
  destruct (project_tree_spec content) as (_ & Hf & Hd & Hnone).
  destruct (project_tree_spec old) as (_ & Hf0 & Hd0 & _).
  split; [|split].
  - destruct (create_project_again content old) as [He Ha].
    apply (create_project_as_union content m (project_tree old));
      [|exact He|exact Ha].
    intros k [Hk|Hk].
    + by rewrite Hdirs, Hd0.
    + apply list_elem_of_fmap in Hk as (p & -> & Hp).
      by rewrite Hfiles, Hf0.
  - intros p Hp. apply lookup_union_Some_l. by apply Hf.
  - intros Hsame. apply map_eq. intros k.
    assert (Hdec : Decision (project_keys k)) by (unfold project_keys; apply _).
    destruct Hdec as [[Hk|Hk]|Hk].
    + rewrite (lookup_union_Some_l _ _ _ OS.Dir) by (by apply Hd).
      by rewrite Hdirs.
    + apply list_elem_of_fmap in Hk as (p & -> & Hp).
      rewrite (lookup_union_Some_l _ _ _ (OS.File (content p))) by (by apply Hf).
      by rewrite Hfiles, Hsame.
    + by rewrite lookup_union_r by (by apply Hnone).
Qed.

(* the project directory with a regular file where the directory booking
   is to be *)
Lemma create_project_blocked (content : string -> string) (x : string) :
  let m0 : gmap (list string) OS.node :=
    {[ [Build.BASE] := OS.Dir; [Build.BASE; "booking"] := OS.File x ]} in
  (Build.create_project (Build.files content) m0).1 = Some OS.FileExistsError
  ∧ Forall (fun p => (Build.create_project (Build.files content) m0).2
                       !! OS.path_parts p = Some (OS.File (content p)))
      (take 6 Build.file_paths)
  ∧ Forall (fun p => (Build.create_project (Build.files content) m0).2
                       !! OS.path_parts p = None)
      (drop 6 Build.file_paths).
Proof.
  intros m0. split; [by vm_compute|]. split.
  - change (take 6 Build.file_paths)
      with ((fun p => String.append Build.BASE p) <$>
              ["/manage.py"; "/scheduler/__init__.py"; "/scheduler/asgi.py";
               "/scheduler/settings.py"; "/scheduler/urls.py";
               "/scheduler/wsgi.py"]).
    rewrite Forall_fmap.
    repeat (apply Forall_cons; split; [by vm_compute|]). apply Forall_nil_2.
  - change (drop 6 Build.file_paths)
      with ((fun p => String.append Build.BASE p) <$>
              ["/booking/__init__.py"; "/booking/admin.py"; "/booking/models.py";
               "/booking/views.py"; "/booking/urls.py";
               "/booking/templates/base.html"; "/booking/templates/calendar.html";
               "/booking/templates/login.html";
               "/booking/templates/admin_panel.html";
               "/booking/templates/book.html";
               "/booking/static/main.css"; "/booking/static/main.js"]).
    rewrite Forall_fmap.
    repeat (apply Forall_cons; split; [by vm_compute|]). apply Forall_nil_2.
Qed.

(** X16.  create_project does not undo what it has written when a path
    is in its way.  If full_scheduler_project is a regular file, the run
    ends at once with FileExistsError and nothing is written.  If
    full_scheduler_project is a directory that holds nothing but a
    regular file named booking, the run ends with FileExistsError when it
    comes to the first file of booking: manage.py and the five files of
    scheduler have been written and stay, none of the twelve files under
    booking exists, and the file booking is as it was. *)
Theorem create_project_stops_at_conflict
    (content : string -> string) (x : string) (m : gmap (list string) OS.node) :
  (m !! [Build.BASE] = Some (OS.File x) →
   Build.create_project (Build.files content) m = (Some OS.FileExistsError, m))
  ∧ ((∀ k, m !! (Build.BASE :: k)
           = ({[ [Build.BASE] := OS.Dir;
                 [Build.BASE; "booking"] := OS.File x ]}
                : gmap (list string) OS.node) !! (Build.BASE :: k)) →
     let r := Build.create_project (Build.files content) m in
     r.1 = Some OS.FileExistsError
     ∧ (∀ p, p ∈ take 6 Build.file_paths →
          r.2 !! OS.path_parts p = Some (OS.File (content p)))
     ∧ (∀ p, p ∈ drop 6 Build.file_paths → r.2 !! OS.path_parts p = None)
     ∧ r.2 !! [Build.BASE; "booking"] = Some (OS.File x)).
Proof.
  split.
  - intros Hm.
    assert (Hmk : OS.makedirs [Build.BASE] m = (Some OS.FileExistsError, m)).
    { unfold OS.makedirs. cbn [rev app OS.makedirs_rev].
      unfold OS.mkdir, OS.parent_check, OS.isdir. cbn [removelast].
      by rewrite !Hm. }
    unfold Build.files, Build.file_paths.
    rewrite !fmap_cons. cbn [Build.create_project].
    replace (OS.path_parts (OS.dirname (String.append Build.BASE "/manage.py")))
      with [Build.BASE] by (by vm_compute).
    by rewrite Hmk.
  - intros Hm r.
    destruct (create_project_blocked content x) as (He0 & Hw0 & Hn0).
    set (m0 := ({[ [Build.BASE] := OS.Dir;
                   [Build.BASE; "booking"] := OS.File x ]}
                  : gmap (list string) OS.node)) in *.
    assert (Ha : agree project_keys m m0).
    { intros k [k' ->]%project_keys_BASE. apply Hm. }
    destruct (create_project_local project_keys (Build.files content) m m0
                (files_covered content) Ha) as [He Hr].
    fold r in He, Hr.
    assert (Hkey : ∀ p, p ∈ Build.file_paths → project_keys (OS.path_parts p)).
    { intros p Hp. right. apply list_elem_of_fmap. eauto. }
    split; [by rewrite He|]. split; [|split].
    + intros p Hp. rewrite Hr by (apply Hkey; by apply (subseteq_take 6)).
      rewrite Forall_forall in Hw0. by apply Hw0.
    + intros p Hp. rewrite Hr by (apply Hkey; by apply (subseteq_drop 6)).
      rewrite Forall_forall in Hn0. by apply Hn0.
    + rewrite Hr by (left; apply (bool_decide_unpack _); by vm_compute).
      by vm_compute.
Qed.

(** * Addresses *)

Example resolve_samples :
  resolve "/" = Some url_index
  ∧ resolve "/login/" = Some url_login
  ∧ resolve "/admin_panel/" = Some url_admin_panel
  ∧ resolve "/book/42/" = Some (url_book 42)
  ∧ resolve "/book/007/" = Some (url_book 7)
  ∧ resolve "/book//" = None
  ∧ resolve "/book/-1/" = None
  ∧ resolve "/book/7" = None
  ∧ resolve "/admin/" = None
  ∧ resolve "login/" = None.
Proof. repeat split; by vm_compute. Qed.

(** X17.  No view redirects to an address without a view.  The login
    page redirects only to /admin_panel/, which is the admin panel; the
    admin panel redirects only to /login/, which is the login page; a
    booking page redirects only to /, which is the calendar; and the
    calendar never redirects. *)
Theorem redirects_lead_to_views
    (u : url) (today : date) (req : request) (d : db) (to : string) :
  (dispatch u today req d).1.1 = Ok (redirect to) →
  (u = url_login ∧ to = "/admin_panel/" ∧ resolve to = Some url_admin_panel)
  ∨ (u = url_admin_panel ∧ to = "/login/" ∧ resolve to = Some url_login)
  ∨ (∃ slot_id, u = url_book slot_id ∧ to = "/" ∧ resolve to = Some url_index).
Proof.
  destruct u as [| | |slot_id]; simpl.
  - unfold index. cbn [fst]. destruct (index_context today d); cbn;
      intros Heq; discriminate Heq.
  - unfold admin_login.
    destruct (decide (method req = "POST")); [|intros Heq; discriminate Heq].
    destruct (decide (POST req !! "password" = Some OWNER_PASSWORD));
      intros Heq; [|discriminate Heq].
    left. simpl in Heq. simplify_eq. repeat split; by vm_compute.
  - unfold admin_panel.
    destruct (Py.truthy (session req !! "is_owner")); simpl.
    + destruct (decide (method req = "POST")); [|intros Heq; discriminate Heq].
      destruct (POST_getitem req "date"); [|intros Heq; discriminate Heq].
      destruct (POST_getitem req "time"); [|intros Heq; discriminate Heq].
      destruct (Slot_objects_create _ _ _ _) as [[]]; intros Heq;
        discriminate Heq.
    + intros Heq. right. left. simpl in Heq. simplify_eq. repeat split; by vm_compute.
  - unfold book_slot.
    destruct (get_object_or_404 slot_id true d); [|intros Heq; discriminate Heq].
    destruct (decide (method req = "POST")); [|intros Heq; discriminate Heq].
    destruct (POST_getitem req "name"); [|intros Heq; discriminate Heq].
    destruct (POST_getitem req "email"); intros Heq; [|discriminate Heq].
    right. right. exists slot_id. simpl in Heq. simplify_eq. repeat split; by vm_compute.
Qed.

End properties.

(** * The properties on the sample data

    Each property that has a premise is applied to the scenario of the
    specification, on an installation that reads no text as a date but
    the form year-month-day. *)

#[global] Existing Instance strict_dates.

Lemma slot_unavailable_is_permanent_witness :
  booked 7 (run (step Sample.db0 Sample.book7)
                [Sample.add_slot; Sample.book7; Sample.view_index])
  ∧ (∃ s', slots (run Sample.db0 [Sample.add_slot; Sample.book7]) !! 1%nat = Some s'
           ∧ s_id s' = 8 ∧ (false = false → s_available s' = false))
  ∧ (false = false ∧ url_book 7 = url_book 7 ∧ "POST" = "POST").
Proof.
  pose proof slot_unavailable_is_permanent as (H1 & H2 & H3).
  split; [|split].
  - apply (H1 Sample.db0 Sample.book7 Sample.alice). vm_compute. reflexivity.
  - apply (H2 Sample.db0 _ 1%nat Sample.slot8). reflexivity.
  - apply (H3 Sample.db0 Sample.book7 0%nat Sample.slot7
              (with_available false Sample.slot7)).
    + reflexivity.
    + vm_compute. reflexivity.
    + simpl. discriminate.
Defined.

Lemma bookable_lookup_not_found_witness :
  (get_object_or_404 8 true Sample.db0 = Raise Http404
   ↔ (¬ (∃ s, s ∈ slots Sample.db0 ∧ s_id s = 8))
     ∨ (∃ s, s ∈ slots Sample.db0 ∧ s_id s = 8 ∧ s_available s = false))
  ∧ book_slot 7 Sample.post_booking
      (run (step Sample.db0 Sample.book7) [Sample.add_slot])
    = (Raise Http404, Sample.anonymous,
       run (step Sample.db0 Sample.book7) [Sample.add_slot]).
Proof.
  pose proof bookable_lookup_not_found as (H1 & _ & H3).
  split.
  - apply H1. unfold pk_unique. apply (bool_decide_unpack _). vm_compute. exact I.
  - apply (H3 Sample.db0 Sample.book7 Sample.alice [Sample.add_slot]
              Sample.post_booking).
    vm_compute. reflexivity.
Defined.

Lemma book_slot_frame_witness :
  ((book_slot 7 (Sample.get Sample.anonymous) Sample.db0).2 = Sample.db0
   ∧ (book_slot 7 (Sample.get Sample.anonymous) Sample.db0).1.2 = Sample.anonymous)
  ∧ ("POST" = "POST" ∧ Sample.anonymous = Sample.anonymous
     ∧ (∃ b, [Sample.alice] = [] ++ [b] ∧ b_slot b = 7)
     ∧ [with_available false Sample.slot7; Sample.slot8; Sample.slot9]
       = (fun r => if s_id r =? 7 then with_available false r else r)
           <$> slots Sample.db0).
Proof.
  pose proof book_slot_frame as (H1 & H2).
  split.
  - apply H1. simpl. discriminate.
  - apply (H2 7 Sample.post_booking Sample.db0
              (mkDb [with_available false Sample.slot7; Sample.slot8; Sample.slot9]
                    [Sample.alice])).
    + unfold pk_unique. apply (bool_decide_unpack _). vm_compute. exact I.
    + vm_compute. reflexivity.
Defined.

Lemma booking_is_written_before_flip_witness :
  let ws := book_slot_writes "Alice" "a@x.com" Sample.slot7 in
  orphan 7 (commit 1 ws Sample.db0) = false
  ∧ booked 7 (commit 2 ws Sample.db0).
Proof.
  pose proof (booking_is_written_before_flip Sample.db0 7 Sample.slot7
                "Alice" "a@x.com" eq_refl) as (_ & _ & _ & H4 & H5 & _).
  exact (conj H4 H5).
Defined.

Lemma owner_login_gate_witness :
  (∃ sess',
      admin_login (Sample.post_password "admin123") Sample.db0
      = (Ok (redirect "/admin_panel/"), sess', Sample.db0)
      ∧ sess' !! "is_owner" = Some true
      ∧ ∀ (req' : request) (d' : db),
          session req' = sess' →
          (admin_panel req' d').1.1 ≠ Ok (redirect "/login/")
          ∧ (method req' ≠ "POST" →
             admin_panel req' d'
             = (Ok (render "admin_panel.html"
                      (admin_panel_context (Slot_objects_order_by_date d'))),
                sess', d')))
  ∧ (admin_login (Sample.post_password "letmein") Sample.db0
     = (Ok (render "login.html" no_context), Sample.anonymous, Sample.db0)
     ∧ admin_panel (Sample.post_slot Sample.anonymous) Sample.db0
       = (Ok (redirect "/login/"), Sample.anonymous, Sample.db0)).
Proof.
  pose proof owner_login_gate as (H1 & H2).
  split.
  - apply (H1 (Sample.post_password "admin123") Sample.db0); reflexivity.
  - destruct (H2 (Sample.post_password "letmein") Sample.db0) as (Hl & Hp).
    + vm_compute. discriminate.
    + split; [exact Hl|].
      apply (Hp eq_refl (Sample.post_slot Sample.anonymous) Sample.db0 eq_refl).
Defined.

Lemma admin_panel_unauthorized_witness :
  admin_panel (Sample.post_slot Sample.anonymous) Sample.db0
  = (Ok (redirect "/login/"), Sample.anonymous, Sample.db0)
  ∧ (admin_panel (Sample.post_slot Sample.anonymous) Sample.db0).2 = Sample.db0
  ∧ slots (admin_panel (Sample.post_slot Sample.anonymous) Sample.db0).2
    = slots Sample.db0.
Proof.
  apply (admin_panel_unauthorized (Sample.post_slot Sample.anonymous) Sample.db0);
    reflexivity.
Defined.

Lemma duplicate_slot_is_created_witness :
  adds_duplicate_of Sample.slot7 (Sample.post_slot Sample.owner) Sample.db0
  ∧ adds_duplicate_of Sample.slot8
      (mkRequest "POST" {[ "date" := "2024-06-11"; "time" := "10am" ]} Sample.owner)
      Sample.db0.
Proof.
  pose proof duplicate_slot_is_created as (H1 & H2).
  split.
  - apply (H1 Sample.db0 Sample.slot7 (Sample.post_slot Sample.owner) "2024-06-10");
      try reflexivity.
    simpl. by left.
  - apply (H2 Sample.db0 Sample.slot8 Sample.owner); try reflexivity.
    simpl. right. by left.
Defined.

Lemma admin_panel_lists_slots_by_date_witness :
  [Sample.slot9; Sample.slot7; Sample.slot8]
  = Slot_objects_order_by_date Sample.db0
  ∧ date_ascending [Sample.slot9; Sample.slot7; Sample.slot8]
  ∧ [Sample.slot9; Sample.slot7; Sample.slot8] ≡ₚ slots Sample.db0.
Proof.
  apply (admin_panel_lists_slots_by_date (Sample.get Sample.owner)
           Sample.db0 Sample.db0 "admin_panel.html" _ Sample.owner).
  reflexivity.
Defined.

Lemma bookings_stay_consistent_witness :
  bookings_consistent
    (run (mkDb [with_available false Sample.slot7; Sample.slot8] [Sample.alice])
         [Sample.add_slot; Sample.book7]).
Proof.
  apply bookings_stay_consistent.
  intros b Hb. apply list_elem_of_singleton in Hb. subst b. split.
  - exists (with_available false Sample.slot7). split; [by left|reflexivity].
  - intros s Hs Hid. simpl in Hs.
    apply elem_of_cons in Hs as [->|Hs]; [reflexivity|].
    apply list_elem_of_singleton in Hs. subst s. discriminate Hid.
Defined.

Lemma no_double_booking_witness :
  one_booking_per_slot
    (run Sample.db0 [Sample.book7; Sample.book7; Sample.add_slot; Sample.book7]).
Proof.
  apply no_double_booking.
  - intros b Hb. by apply elem_of_nil in Hb.
  - apply NoDup_nil_2.
Defined.

Lemma owner_flag_is_only_set_by_login_witness :
  Py.truthy
    ((serve_all (Sample.owner, Sample.db0)
        [mkHit url_login Sample.today "POST" {[ "password" := "wrong" ]};
         mkHit url_index Sample.today "GET" ∅;
         mkHit (url_book 7) Sample.today "POST" ∅]).1 !! "is_owner") = true
  ∧ (serve (Sample.anonymous, Sample.db0)
       (mkHit url_login Sample.today "POST" {[ "password" := "admin123" ]})).1
      !! "csrf" = None.
Proof.
  pose proof (owner_flag_is_only_set_by_login (Sample.owner, Sample.db0))
    as (_ & _ & H3).
  pose proof (owner_flag_is_only_set_by_login (Sample.anonymous, Sample.db0))
    as (_ & H2 & _).
  split.
  - apply H3. reflexivity.
  - rewrite H2; [reflexivity|discriminate].
Defined.

Lemma only_owner_changes_slot_keys_witness :
  s_id <$> slots (step Sample.db0
                    (mkEvent url_admin_panel Sample.today
                       (Sample.post_slot Sample.anonymous)))
  = s_id <$> slots Sample.db0.
Proof.
  apply (only_owner_changes_slot_keys Sample.db0). reflexivity.
Defined.

Lemma book_slot_missing_field_witness :
  (∀ slot, get_object_or_404 7 true Sample.db0 = Ok slot →
     book_slot 7 (mkRequest "POST" {[ "name" := "Alice" ]} Sample.anonymous)
       Sample.db0
     = (Raise (MultiValueDictKeyError "email"), Sample.anonymous, Sample.db0))
  ∧ (get_object_or_404 8 true Sample.db0 = Raise Http404 →
     book_slot 8 (mkRequest "POST" ∅ Sample.anonymous) Sample.db0
     = (Raise Http404, Sample.anonymous, Sample.db0)).
Proof.
  split.
  - exact (proj1 (book_slot_missing_field 7
                    (mkRequest "POST" {[ "name" := "Alice" ]} Sample.anonymous)
                    Sample.db0 eq_refl (or_intror eq_refl))).
  - exact (proj2 (book_slot_missing_field 8
                    (mkRequest "POST" ∅ Sample.anonymous)
                    Sample.db0 eq_refl (or_introl eq_refl))).
Defined.

Lemma admin_panel_rejects_bad_form_witness :
  admin_panel (mkRequest "POST" {[ "time" := "9am" ]} Sample.owner) Sample.db0
  = (Raise (MultiValueDictKeyError "date"), Sample.owner, Sample.db0)
  ∧ admin_panel (mkRequest "POST" {[ "date" := "soon" ]} Sample.owner) Sample.db0
    = (Raise (MultiValueDictKeyError "time"), Sample.owner, Sample.db0)
  ∧ admin_panel (mkRequest "POST" {[ "date" := "2024-02-30"; "time" := "9am" ]}
                   Sample.owner) Sample.db0
    = (Raise ValidationError, Sample.owner, Sample.db0).
Proof.
  split; [|split].
  - apply (admin_panel_rejects_bad_form
             (mkRequest "POST" {[ "time" := "9am" ]} Sample.owner) Sample.db0
             eq_refl eq_refl).
    reflexivity.
  - apply (admin_panel_rejects_bad_form
             (mkRequest "POST" {[ "date" := "soon" ]} Sample.owner) Sample.db0
             eq_refl eq_refl); [by eexists|reflexivity].
  - apply (proj2 (proj2 (admin_panel_rejects_bad_form
             (mkRequest "POST" {[ "date" := "2024-02-30"; "time" := "9am" ]}
                Sample.owner) Sample.db0 eq_refl eq_refl)) "2024-02-30" "9am").
    + reflexivity.
    + reflexivity.
    + intros dt Hdt. vm_compute in Hdt. discriminate Hdt.
Defined.

Lemma available_slot_can_be_booked_witness :
  book_slot 7 (Sample.get Sample.owner) Sample.db0
  = (Ok (render "book.html" (book_context Sample.slot7)), Sample.owner, Sample.db0)
  ∧ book_slot 7
      (mkRequest "POST" {[ "name" := "Bob"; "email" := "b@x.org"; "note" := "hi" ]}
         Sample.anonymous) Sample.db0
    = (Ok (redirect "/"), Sample.anonymous,
       mkDb [with_available false Sample.slot7; Sample.slot8; Sample.slot9]
            [mkBooking 1 "Bob" "b@x.org" 7]).
Proof.
  assert (Hpk : pk_unique Sample.db0).
  { unfold pk_unique. apply (bool_decide_unpack _). vm_compute. exact I. }
  assert (Hin : Sample.slot7 ∈ slots Sample.db0) by (simpl; by left).
  pose proof (available_slot_can_be_booked Sample.db0 Sample.slot7 Hpk Hin eq_refl)
    as [H1 H2].
  split.
  - apply (H1 (Sample.get Sample.owner)). simpl. discriminate.
  - apply (H2 (mkRequest "POST"
                 {[ "name" := "Bob"; "email" := "b@x.org"; "note" := "hi" ]}
                 Sample.anonymous) "Bob" "b@x.org"); reflexivity.
Defined.

Lemma slot_map_last_slot_wins_witness :
  build_slot_map
    ([Sample.slot7] ++ with_available false Sample.slot7 :: [Sample.slot8])
    !! (Date 2024 6 10, "9am")
  = Some false.
Proof.
  pose proof slot_map_last_slot_wins as [_ H].
  apply (H [Sample.slot7] [Sample.slot8] (with_available false Sample.slot7)).
  intros r Hr. apply list_elem_of_singleton in Hr. subst r. discriminate.
Defined.

Lemma calendar_context_lists_each_day_once_witness :
  ∃ days slot_map,
    index_context Sample.today Sample.db0
    = Ok (calendar_context days slot_map 6 2024)
    ∧ (∃ weeks : nat, length days = (7 * weeks)%nat)
    ∧ filter (fun dt => month dt = 6) days
      = (fun n => Date 2024 6 n) <$> seqZ 1 30.
Proof.
  eexists _, _. split; [vm_compute; reflexivity|].
  match goal with
  | |- (∃ weeks : nat, length ?days = _) ∧ _ =>
      pose proof (calendar_context_lists_each_day_once Sample.today Sample.db0
                    days _ 6 2024 eq_refl) as (_ & _ & H2 & H3)
  end.
  split; [exact H2|exact H3].
Defined.

Lemma calendar_is_never_rendered_witness :
  (∃ c, index_context (Date 2024 2 29) Sample.db0 = Ok c)
  ∧ index (Date 2024 2 29) (Sample.get Sample.owner) Sample.db0
    = (Raise TemplateSyntaxError, Sample.owner, Sample.db0).
Proof.
  apply (calendar_is_never_rendered (Date 2024 2 29) (Sample.get Sample.owner)
           Sample.db0); [reflexivity|simpl; lia].
Defined.


Lemma create_project_in_fresh_directory_witness :
  Build.create_project (Build.files (fun p => p))
    {[ ["notes.txt"] := OS.File "keep" ]}
  = (None, project_tree (fun p => p) ∪ {[ ["notes.txt"] := OS.File "keep" ]})
  ∧ (project_tree (fun p => p) ∪ {[ ["notes.txt"] := OS.File "keep" ]})
      !! [Build.BASE; "booking"; "views.py"]
    = Some (OS.File "full_scheduler_project/booking/views.py").
Proof.
  destruct (create_project_in_fresh_directory (fun p => p)
              {[ ["notes.txt"] := OS.File "keep" ]}) as (H1 & H2 & _).
  - intros k. apply lookup_singleton_ne. discriminate.
  - split; [exact H1|].
    apply (H2 "full_scheduler_project/booking/views.py").
    apply (bool_decide_unpack _). vm_compute. exact I.
Defined.

Lemma create_project_overwrites_witness :
  Build.create_project (Build.files (fun p => p))
    (project_tree (fun _ => "old") ∪ {[ ["notes.txt"] := OS.File "keep" ]})
  = (None,
     project_tree (fun p => p)
     ∪ (project_tree (fun _ => "old") ∪ {[ ["notes.txt"] := OS.File "keep" ]})).
Proof.
  destruct (project_tree_spec (fun _ => "old")) as (_ & Hf & Hd & _).
  apply (create_project_overwrites (fun p => p) (fun _ => "old")).
  - intros k Hk. apply lookup_union_Some_l. by apply Hd.
  - intros p Hp. apply lookup_union_Some_l. by apply Hf.
Defined.

Lemma create_project_stops_at_conflict_witness :
  Build.create_project (Build.files (fun p => p))
    {[ [Build.BASE] := OS.File "a note" ]}
  = (Some OS.FileExistsError, {[ [Build.BASE] := OS.File "a note" ]})
  ∧ (Build.create_project (Build.files (fun p => p))
       {[ [Build.BASE] := OS.Dir; [Build.BASE; "booking"] := OS.File "a note" ]}).1
    = Some OS.FileExistsError.
Proof.
  split.
  - apply (proj1 (create_project_stops_at_conflict (fun p => p) "a note"
                    {[ [Build.BASE] := OS.File "a note" ]})).
    reflexivity.
  - apply (proj2 (create_project_stops_at_conflict (fun p => p) "a note"
                    {[ [Build.BASE] := OS.Dir;
                       [Build.BASE; "booking"] := OS.File "a note" ]})).
    intros k. reflexivity.
Defined.

Lemma redirects_lead_to_views_witness :
  (url_book 7 = url_login ∧ "/" = "/admin_panel/"
   ∧ resolve "/" = Some url_admin_panel)
  ∨ (url_book 7 = url_admin_panel ∧ "/" = "/login/" ∧ resolve "/" = Some url_login)
  ∨ (∃ slot_id, url_book 7 = url_book slot_id ∧ "/" = "/"
                ∧ resolve "/" = Some url_index).
Proof.
  apply (redirects_lead_to_views (url_book 7) Sample.today Sample.post_booking
           Sample.db0 "/").
  reflexivity.
Defined.
